(** * CAFA evaluation: confusion matrices per (protein, threshold)

    A shallow embedding of [evaluate_species_prediction.py] and the
    properties of its three cooperating functions: the table initializer,
    the set-based confusion calculator and the matrix populator.

    Modelling choices.
    - Term and protein identifiers are strings; Python sets of terms are
      [gset string], [len] is [size].
    - Confidence scores are JSON numbers.  The program only compares them
      ([>=], set membership, [sorted]) and never does arithmetic on them, so
      a score is modelled by its exact value, a canonical rational [Qc],
      whose order and equality agree with those of finite floats ([1] and
      [1.0] are one threshold in Python as well).  The non-finite literals
      that [json.load] tolerates beyond the JSON grammar are left out.
    - The prediction dictionary is only read through [.get], [.values()] and
      [.items()] into sets, so it is a [gmap]; the benchmark annotation
      dictionary is also enumerated in insertion order ([.keys()] fixes the
      row order), so it is an association list, a dictionary when its keys
      are pairwise distinct.
    - Python integers are [Z].  The count columns of the frame are [int64]:
      the results of [len] always fit; the true-negative count is computed
      from the term count of the benchmark, a JSON integer of any size, and
      is stored only when it lies between -2^63 and 2^63 - 1.
    - Python exceptions are the [Raise] results of a small error monad. *)

From Stdlib Require Import ZArith QArith Qcanon.
From stdpp Require Import base option list numbers strings gmap fin_maps
  fin_sets sorting.

#[local] Set Warnings "-clear-no-such-hyp".

Local Open Scope string_scope.
Local Open Scope list_scope.
Local Open Scope Z_scope.

(** ** Exceptions *)

Inductive py_error : Type :=
  | IndexError
  | KeyError
  | TypeError
  | AttributeError
  | ZeroDivisionError.

Inductive result (A : Type) : Type :=
  | Ok (a : A)
  | Raise (e : py_error).
Arguments Ok {A} a.
Arguments Raise {A} e.

Global Instance result_ret : MRet result := λ A a, Ok a.
Global Instance result_bind : MBind result := λ A B k r,
  match r with
  | Ok a => k a
  | Raise e => Raise e
  end.

(** [for x in xs: body], threading the loop state. *)
Fixpoint py_for {X St} (xs : list X) (body : X → St → result St) (s : St)
    : result St :=
  match xs with
  | [] => Ok s
  | x :: xs' => s' ← body x s; py_for xs' body s'
  end.

(** [l[i]] with Python's negative indices. *)
Definition py_getitem {A} (l : list A) (i : Z) : result A :=
  let j := if i <? 0 then Z.of_nat (length l) + i else i in
  if j <? 0 then Raise IndexError
  else match l !! Z.to_nat j with
       | Some a => Ok a
       | None => Raise IndexError
       end.

(** ** Set-based confusion calculator *)

Record cm_terms : Type := CmTerms {
  TP_terms : gset string;
  FP_terms : gset string;
  FN_terms : gset string
}.

Definition get_confusion_matrix_terms
    (predicted_terms benchmark_terms : gset string) : cm_terms :=
  let true_positive_terms := predicted_terms ∩ benchmark_terms in
  let false_positive_terms := predicted_terms ∖ benchmark_terms in
  let false_negative_terms := benchmark_terms ∖ predicted_terms in
  {| TP_terms := true_positive_terms;
     FP_terms := false_positive_terms;
     FN_terms := false_negative_terms |}.

Record conf_matrix : Type := ConfMatrix {
  TP : Z;
  FP : Z;
  FN : Z
}.

Definition py_len (s : gset string) : Z := Z.of_nat (size s).

Definition calculate_confusion_matrix
    (predicted_terms benchmark_terms : gset string) : conf_matrix :=
  let cm_terms := get_confusion_matrix_terms predicted_terms benchmark_terms in
  let true_positive := py_len (TP_terms cm_terms) in
  let false_positive := py_len (FP_terms cm_terms) in
  let false_negative := py_len (FN_terms cm_terms) in
  {| TP := true_positive; FP := false_positive; FN := false_negative |}.

(** [sum(conf_matrix.values())] *)
Definition sum_values (c : conf_matrix) : Z := 0 + TP c + FP c + FN c.

(** ** The table *)

(** One row of the frame: the composite index [(protein, threshold)] and the
    four integer columns. *)
Record Row : Type := MkRow {
  protein : string;
  threshold : Qc;
  tp : Z;
  fp : Z;
  fn : Z;
  tn : Z
}.

Definition set_protein (p : string) (r : Row) : Row :=
  MkRow p (threshold r) (tp r) (fp r) (fn r) (tn r).
Definition set_threshold (t : Qc) (r : Row) : Row :=
  MkRow (protein r) t (tp r) (fp r) (fn r) (tn r).
Definition set_tp (v : Z) (r : Row) : Row :=
  MkRow (protein r) (threshold r) v (fp r) (fn r) (tn r).
Definition set_fp (v : Z) (r : Row) : Row :=
  MkRow (protein r) (threshold r) (tp r) v (fn r) (tn r).
Definition set_fn (v : Z) (r : Row) : Row :=
  MkRow (protein r) (threshold r) (tp r) (fp r) v (tn r).
Definition set_tn (v : Z) (r : Row) : Row :=
  MkRow (protein r) (threshold r) (tp r) (fp r) (fn r) v.

Definition key (r : Row) : string * Qc := (protein r, threshold r).

(** A row of [np.zeros((n, 6))] after [astype]: the string of [0.0], the
    float [0.0] and four integer zeros. *)
Definition zero_row : Row := MkRow "0.0" (Q2Qc 0) 0 0 0 0.

(** [len] of a list, as a Python integer. *)
Definition len {A} (l : list A) : Z := Z.of_nat (length l).

(** [a % b] *)
Definition py_mod (a b : Z) : result Z :=
  if b =? 0 then Raise ZeroDivisionError else Ok (a mod b).

(** [df.iloc[i, col] = v] for [i] in [range(df.shape[0])]. *)
Definition iloc_set (i : Z) (f : Row → Row) (df : list Row) : list Row :=
  alter f (Z.to_nat i) df.

(** ** Threshold/protein table initializer *)

(** One iteration of the loop over [range(0, df.shape[0])]; the state is
    [benchmark_protein_index] and the frame. *)
Definition initialize_body (proteins : list string) (thresholds : list Qc)
    (i : Z) (st : Z * list Row) : result (Z * list Row) :=
  let '(benchmark_protein_index, protein_and_threshold_df) := st in
  threshold_index ← py_mod i (len thresholds);
  let benchmark_protein_index :=
    if threshold_index =? 0 then benchmark_protein_index + 1
    else benchmark_protein_index in
  p ← py_getitem proteins benchmark_protein_index;
  let protein_and_threshold_df :=
    iloc_set i (set_protein p) protein_and_threshold_df in
  t ← py_getitem thresholds threshold_index;
  let protein_and_threshold_df :=
    iloc_set i (set_threshold t) protein_and_threshold_df in
  Ok (benchmark_protein_index, protein_and_threshold_df).

(** The frame over [np.zeros] has one zero row per protein/threshold pair;
    the loop then fills the two key columns row by row, and [set_index]
    makes them the index. *)
Definition initialize_proteins_and_thresholds_dataframe
    (proteins : list string) (thresholds : list Qc) : result (list Row) :=
  let matrix :=
    replicate (length proteins * length thresholds)%nat zero_row in
  let protein_and_threshold_df := matrix in
  let benchmark_protein_index := -1 in
  st ← py_for (seqZ 0 (len protein_and_threshold_df))
         (initialize_body proteins thresholds)
         (benchmark_protein_index, protein_and_threshold_df);
  Ok st.2.

(** ** Matrix populator *)

(** The benchmark record, as [json.load] delivers it; a field read with
    [.get] is [None] when the key is missing or [null]. *)
Record benchmark : Type := MkBenchmark {
  benchmark_ontology : option string;
  benchmark_ontology_term_count : option Z;
  benchmark_taxon : option string;
  benchmark_taxon_id : option Z;
  protein_annotations : option (list (string * list string))
}.

(** [d.get(k)] on a dictionary kept in insertion order. *)
Fixpoint dict_get {V} (d : list (string * V)) (k : string) : option V :=
  match d with
  | [] => None
  | (k', v) :: d' => if decide (k' = k) then Some v else dict_get d' k
  end.

(** [list(d.keys())] *)
Definition dict_keys {V} (d : list (string * V)) : list string := d.*1.

(** The set comprehension over every score of every protein. *)
Definition threshold_set (prediction_dict : gmap string (gmap string Qc))
    : gset Qc :=
  ⋃ ((λ protein : gmap string Qc, map_img protein)
       <$> (map_to_list prediction_dict).*2).

(** [sorted] on numbers. *)
Definition py_sorted (l : list Qc) : list Qc := merge_sort Qcle l.

(** [sorted(list({...}))]; [py_list] is the order in which [list] walks the
    set. *)
Definition distinct_prediction_thresholds_with
    (py_list : gset Qc → list Qc)
    (prediction_dict : gmap string (gmap string Qc)) : list Qc :=
  py_sorted (py_list (threshold_set prediction_dict)).

(** [{k for k, v in predicted_terms.items() if v >= threshold}] *)
Definition predicted_annotations (predicted_terms : gmap string Qc)
    (threshold : Qc) : gset string :=
  dom (filter (λ kv : string * Qc, (threshold ≤ kv.2)%Qc) predicted_terms).

(** [df.loc[protein, threshold].col = v]: the row with this key is selected
    ([KeyError] when there is none) and the assignment to its attribute
    lands in the frame (the four count columns share one dtype, so the row
    is a view of the frame), as the filled table in the docstring of the
    source shows.  The index is unique wherever the populator uses [loc]:
    the proteins are the keys of a dictionary and the thresholds come out of
    a set. *)
Definition loc_set (protein0 : string) (threshold0 : Qc) (f : Row → Row)
    (df : list Row) : result (list Row) :=
  match list_find (λ r, key r = (protein0, threshold0)) df with
  | Some (i, _) => Ok (alter f i df)
  | None => Raise KeyError
  end.

(** The four count columns are typed [int] by [astype], that is [int64]. *)
Definition int64_min : Z := - 2 ^ 63.
Definition int64_max : Z := 2 ^ 63 - 1.

Definition fits_int64 (v : Z) : bool :=
  (int64_min <=? v) && (v <=? int64_max).

(** [df.loc[protein, threshold].col = v] for a Python integer [v] of any
    size.  A value outside the [int64] range cannot be put into the selected
    row without changing the dtype of that row; the row then stops being a
    view, nothing is raised and the frame keeps what it held. *)
Definition loc_set_int (protein0 : string) (threshold0 : Qc)
    (setter : Z → Row → Row) (v : Z) (df : list Row) : result (list Row) :=
  loc_set protein0 threshold0 (if fits_int64 v then setter v else id) df.

(** [set(l)] when [l] may be [None]. *)
Definition py_set (l : option (list string)) : result (gset string) :=
  match l with
  | Some l => Ok (list_to_set l)
  | None => Raise TypeError
  end.

(** [n - m] when [n] may be [None]. *)
Definition py_sub (n : option Z) (m : Z) : result Z :=
  match n with
  | Some n => Ok (n - m)
  | None => Raise TypeError
  end.

(** The body of the nested loop for one threshold and one protein.  The
    three counts are results of [len], machine-sized integers that [int64]
    always holds; [true_negative] comes from the term count, a JSON integer
    of any size, and is written through [loc_set_int]. *)
Definition populate_body (prediction_dict : gmap string (gmap string Qc))
    (benchmark_annotations : list (string * list string))
    (benchmark_ontology_term_count : option Z)
    (threshold : Qc) (protein : string) (protein_and_threshold_df : list Row)
    : result (list Row) :=
  let predicted_terms := default ∅ (prediction_dict !! protein) in
  let predicted_annotations := predicted_annotations predicted_terms threshold in
  benchmark_protein_annotation ←
    py_set (dict_get benchmark_annotations protein);
  let conf_matrix :=
    calculate_confusion_matrix predicted_annotations
      benchmark_protein_annotation in
  true_negative ← py_sub benchmark_ontology_term_count (sum_values conf_matrix);
  df ← loc_set protein threshold (set_tp (TP conf_matrix))
         protein_and_threshold_df;
  df ← loc_set protein threshold (set_fp (FP conf_matrix)) df;
  df ← loc_set protein threshold (set_fn (FN conf_matrix)) df;
  loc_set_int protein threshold set_tn true_negative df.

(** A row of the returned frame: the three metadata columns in front of the
    counts. *)
Record ConfusionRow : Type := MkConfusionRow {
  ontology : option string;
  taxon_id : option Z;
  taxon : option string;
  counts : Row
}.

(** [df.insert(0, column, value)] with a scalar value. *)
Definition insert_metadata (ontology0 : option string) (taxon_id0 : option Z)
    (taxon0 : option string) (df : list Row) : list ConfusionRow :=
  MkConfusionRow ontology0 taxon_id0 taxon0 <$> df.

Definition get_confusion_matrix_dataframe_with
    (py_list : gset Qc → list Qc)
    (prediction_dict : gmap string (gmap string Qc))
    (benchmark_dict : benchmark) : result (list ConfusionRow) :=
  let distinct_prediction_thresholds :=
    distinct_prediction_thresholds_with py_list prediction_dict in
  let benchmark_ontology := benchmark_ontology benchmark_dict in
  let benchmark_ontology_term_count :=
    benchmark_ontology_term_count benchmark_dict in
  let benchmark_taxon := benchmark_taxon benchmark_dict in
  let benchmark_taxon_id := benchmark_taxon_id benchmark_dict in
  match protein_annotations benchmark_dict with
  | None => Raise AttributeError
  | Some benchmark_annotations =>
    let benchmark_proteins := dict_keys benchmark_annotations in
    protein_and_threshold_df ←
      initialize_proteins_and_thresholds_dataframe benchmark_proteins
        distinct_prediction_thresholds;
    protein_and_threshold_df ←
      py_for distinct_prediction_thresholds (λ threshold df,
        py_for benchmark_proteins
          (populate_body prediction_dict benchmark_annotations
             benchmark_ontology_term_count threshold) df)
        protein_and_threshold_df;
    Ok (insert_metadata benchmark_ontology benchmark_taxon_id benchmark_taxon
          protein_and_threshold_df)
  end.

(** The program itself: [list] walks the set in the order of its elements. *)
Definition get_confusion_matrix_dataframe
    (prediction_dict : gmap string (gmap string Qc))
    (benchmark_dict : benchmark) : result (list ConfusionRow) :=
  get_confusion_matrix_dataframe_with elements prediction_dict benchmark_dict.

(** ** Worked scenarios *)

Definition score (n : Z) (d : positive) : Qc := Q2Qc (n # d).

Definition scenario_predictions : gmap string (gmap string Qc) :=
  {[ "P1" := {[ "GO:1" := score 1 2; "GO:2" := score 9 10 ]} ]}.

Definition scenario_benchmark : benchmark :=
  MkBenchmark (Some "X") (Some 10) (Some "T") (Some 1)
    (Some [("P1", ["GO:1"; "GO:3"])]).

(** The scenario with a second benchmark protein that has no predictions. *)
Definition scenario_b_benchmark : benchmark :=
  MkBenchmark (Some "X") (Some 10) (Some "T") (Some 1)
    (Some [("P1", ["GO:1"; "GO:3"]); ("P2", ["GO:4"; "GO:4"; "GO:5"])]).

(** The two scenario benchmarks with a term count that lies above the
    largest [int64] value. *)
Definition huge_count_benchmark : benchmark :=
  MkBenchmark (Some "X") (Some (2 ^ 63 + 5)) (Some "T") (Some 1)
    (Some [("P1", ["GO:1"; "GO:3"])]).

Definition huge_count_b_benchmark : benchmark :=
  MkBenchmark (Some "X") (Some (2 ^ 63 + 5)) (Some "T") (Some 1)
    (Some [("P1", ["GO:1"; "GO:3"]); ("P2", ["GO:4"; "GO:4"; "GO:5"])]).


(** Predictions with one score and a benchmark without proteins. *)
Definition lone_prediction : gmap string (gmap string Qc) :=
  {[ "P1" := {[ "GO:1" := score 1 2 ]} ]}.

Definition empty_benchmark : benchmark :=
  MkBenchmark (Some "X") (Some 10) (Some "T") (Some 1) (Some []).

(** A benchmark without term count, and one without any metadata. *)
Definition no_count_benchmark : benchmark :=
  MkBenchmark (Some "X") None (Some "T") (Some 1)
    (Some [("P1", ["GO:1"; "GO:3"])]).

Definition bare_benchmark : benchmark :=
  MkBenchmark None (Some 10) None None (Some [("P1", ["GO:1"; "GO:3"])]).

(** The scenario benchmark with the terms of [P1] repeated and reordered. *)
Definition shuffled_benchmark : benchmark :=
  MkBenchmark (Some "X") (Some 10) (Some "T") (Some 1)
    (Some [("P1", ["GO:3"; "GO:1"; "GO:3"])]).

(** The scenario predictions with a protein outside the benchmark whose
    scores bring no new threshold. *)
Definition scenario_predictions_extra : gmap string (gmap string Qc) :=
  {[ "P1" := {[ "GO:1" := score 1 2; "GO:2" := score 9 10 ]};
     "P7" := {[ "GO:9" := score 9 10 ]} ]}.

(** Predictions in which no protein has a score. *)
Definition scoreless_predictions : gmap string (gmap string Qc) :=
  {[ "P1" := ∅ ]}.

(** A benchmark without the annotation mapping. *)
Definition no_annotations_benchmark : benchmark :=
  MkBenchmark (Some "X") (Some 10) (Some "T") (Some 1) None.

(** Two predicted proteins, the scores of the first below those of the
    second. *)
Definition two_protein_predictions : gmap string (gmap string Qc) :=
  {[ "P1" := {[ "GO:1" := score 1 2 ]}; "P2" := {[ "GO:4" := score 9 10 ]} ]}.

(** A benchmark whose only protein has an empty list of terms. *)
Definition unannotated_benchmark : benchmark :=
  MkBenchmark (Some "X") (Some 10) (Some "T") (Some 1) (Some [("P1", [])]).

(** Rows of the tables of these scenarios. *)
Definition scenario_row_low : ConfusionRow :=
  MkConfusionRow (Some "X") (Some 1) (Some "T")
    (MkRow "P1" (score 1 2) 1 1 1 7).

Definition scenario_row_high : ConfusionRow :=
  MkConfusionRow (Some "X") (Some 1) (Some "T")
    (MkRow "P1" (score 9 10) 0 1 2 7).

Definition two_protein_row : ConfusionRow :=
  MkConfusionRow (Some "X") (Some 1) (Some "T")
    (MkRow "P1" (score 9 10) 0 0 2 8).

Definition unannotated_row : ConfusionRow :=
  MkConfusionRow (Some "X") (Some 1) (Some "T")
    (MkRow "P1" (score 1 2) 0 2 0 8).

(** The rows of the tables with the term count 2^63 + 5. *)
Definition huge_count_row : ConfusionRow :=
  MkConfusionRow (Some "X") (Some 1) (Some "T")
    (MkRow "P1" (score 1 2) 1 1 1 0).

Definition huge_count_row_b : ConfusionRow :=
  MkConfusionRow (Some "X") (Some 1) (Some "T")
    (MkRow "P2" (score 1 2) 0 0 2 0).

(** ** Specification-side definitions *)

(** The rows the initializer is meant to produce: protein outer, threshold
    inner, every count zero. *)
Definition key_rows (proteins : list string) (thresholds : list Qc)
    : list Row :=
  p ← proteins; (λ t, MkRow p t 0 0 0 0) <$> thresholds.

(** The effect of a write on one row of the frame. *)
Definition write (k : string * Qc) (f : Row → Row) (r : Row) : Row :=
  if decide (key r = k) then f r else r.

(** What an [int64] cell that held zero holds after the write of [v]. *)
Definition stored_int64 (v : Z) : Z := if fits_int64 v then v else 0.

(** The cell the populator computes for one protein at one threshold. *)
Definition cell_row (prediction_dict : gmap string (gmap string Qc))
    (benchmark_annotations : list (string * list string)) (term_count : Z)
    (k : string * Qc) : Row :=
  let cm :=
    calculate_confusion_matrix
      (predicted_annotations (default ∅ (prediction_dict !! k.1)) k.2)
      (list_to_set (default [] (dict_get benchmark_annotations k.1))) in
  MkRow k.1 k.2 (TP cm) (FP cm) (FN cm)
    (stored_int64 (term_count - sum_values cm)).

(** Rows whose key satisfies [D] already hold their cell; any other row has
    its cell or still a zero in [tn]. *)
Definition filled (cell : string * Qc → Row) (D : string * Qc → Prop)
    (df : list Row) : Prop :=
  ∀ r, r ∈ df →
    (D (key r) → r = cell (key r)) ∧ (tn r = 0 ∨ r = cell (key r)).

(** [list] may walk a set in any order, but walks each element once. *)
Definition set_order (py_list : gset Qc → list Qc) : Prop :=
  ∀ s, py_list s ≡ₚ elements s.

(** The table of the populator in closed form: one cell per benchmark
    protein (outer) and extracted threshold (inner). *)
Definition populated_rows (py_list : gset Qc → list Qc)
    (prediction_dict : gmap string (gmap string Qc))
    (benchmark_annotations : list (string * list string)) (term_count : Z)
    : list Row :=
  cell_row prediction_dict benchmark_annotations term_count
    <$> (key <$> key_rows (dict_keys benchmark_annotations)
           (distinct_prediction_thresholds_with py_list prediction_dict)).

(** The number of distinct elements of [l] that satisfy [P]. *)
Definition count_distinct (P : string → Prop) `{!∀ x, Decision (P x)}
    (l : list string) : Z :=
  len (remove_dups (filter P l)).

(** An input the program can receive: the annotation dictionary is present
    with pairwise distinct keys and the term count is an integer. *)
Definition benchmark_ok (benchmark_dict : benchmark)
    (anns : list (string * list string)) (c : Z) : Prop :=
  protein_annotations benchmark_dict = Some anns ∧
  NoDup (dict_keys anns) ∧
  benchmark_ontology_term_count benchmark_dict = Some c.

(** The index and the four count columns of a result, the metadata columns
    left aside. *)
Definition index_and_counts (r : result (list ConfusionRow))
    : result (list Row) :=
  match r with
  | Ok df => Ok (counts <$> df)
  | Raise e => Raise e
  end.

(** ** Loops and indexing *)

Section loops.
Context {X St : Type}.
Implicit Types (xs : list X) (body : X → St → result St).

(** The invariant rule of [for]: an invariant indexed by the number of
    completed iterations survives the whole loop, and the loop returns. *)
Lemma py_for_invariant (I : nat → St → Prop) xs body s :
  I 0%nat s →
  (∀ k x s, xs !! k = Some x → I k s →
     ∃ s', body x s = Ok s' ∧ I (S k) s') →
  ∃ s', py_for xs body s = Ok s' ∧ I (length xs) s'.
Proof.
  revert I s. induction xs as [|x xs IH]; intros I s H0 Hstep; simpl.
  - by exists s.
  - destruct (Hstep 0%nat x s) as (s1 & -> & H1); [done..|]. simpl.
    apply (IH (λ k, I (S k))); [done|].
    intros k y s2 Hk. by apply (Hstep (S k)).
Qed.
End loops.

Lemma py_getitem_lookup {A} (l : list A) (i : nat) (a : A) :
  l !! i = Some a → py_getitem l (Z.of_nat i) = Ok a.
Proof.
  intros Hi. unfold py_getitem.
  destruct (Z.ltb_spec (Z.of_nat i) 0) as [?|_]; [lia|].
  destruct (Z.ltb_spec (Z.of_nat i) 0) as [?|_]; [lia|].
  by rewrite Nat2Z.id, Hi.
Qed.

(** ** The initializer builds the product of its two arguments *)

Lemma length_key_rows proteins thresholds :
  length (key_rows proteins thresholds)
  = (length proteins * length thresholds)%nat.
Proof.
  unfold key_rows. induction proteins as [|p ps IH]; [done|].
  rewrite bind_cons, length_app, length_fmap, IH. simpl. lia.
Qed.

Lemma lookup_key_rows proteins thresholds a b p t :
  proteins !! a = Some p → thresholds !! b = Some t →
  key_rows proteins thresholds !! (a * length thresholds + b)%nat
  = Some (MkRow p t 0 0 0 0).
Proof.
  unfold key_rows. revert a.
  induction proteins as [|p' ps IH]; intros a Ha Hb; [done|].
  rewrite bind_cons. destruct a as [|a]; simplify_eq/=.
  - rewrite lookup_app_l by (rewrite length_fmap; by eapply lookup_lt_Some).
    by rewrite list_lookup_fmap, Hb.
  - rewrite lookup_app_r by (rewrite length_fmap; lia).
    rewrite length_fmap.
    replace (length thresholds + a * length thresholds + b
             - length thresholds)%nat
      with (a * length thresholds + b)%nat by lia.
    by apply IH.
Qed.

Lemma elem_of_key_rows proteins thresholds r :
  r ∈ key_rows proteins thresholds ↔
  ∃ p t, r = MkRow p t 0 0 0 0 ∧ p ∈ proteins ∧ t ∈ thresholds.
Proof.
  unfold key_rows. rewrite list_elem_of_bind. split.
  - intros (p & Hr & Hp). apply list_elem_of_fmap in Hr as (t & -> & Ht).
    by exists p, t.
  - intros (p & t & -> & Hp & Ht). exists p. split; [|done].
    apply list_elem_of_fmap. by exists t.
Qed.

Lemma alter_take_replicate (target : list Row) (k n : nat) (f : Row → Row) r :
  target !! k = Some r → f zero_row = r → (k < n)%nat →
  alter f k (take k target ++ replicate (n - k) zero_row)
  = take (S k) target ++ replicate (n - S k) zero_row.
Proof.
  intros Hk Hf Hlt.
  assert (length (take k target) = k) as Hlen.
  { rewrite length_take. apply lookup_lt_Some in Hk. lia. }
  rewrite (take_S_r _ _ _ Hk), <-(assoc_L (++)).
  replace (n - k)%nat with (S (n - S k)) by lia.
  rewrite <-(Nat.add_0_r k) at 1. rewrite <-Hlen at 1.
  rewrite alter_app_r. simpl. by rewrite Hf.
Qed.

Lemma initialize_step (proteins : list string) (thresholds : list Qc)
    (k : nat) :
  (k < length proteins * length thresholds)%nat →
  ∃ p t,
    proteins !! (k / length thresholds)%nat = Some p ∧
    thresholds !! (k mod length thresholds)%nat = Some t ∧
    ∀ df, initialize_body proteins thresholds (Z.of_nat k)
            ((Z.of_nat k - 1) / len thresholds, df)
          = Ok ((Z.of_nat (S k) - 1) / len thresholds,
                iloc_set (Z.of_nat k) (set_threshold t)
                  (iloc_set (Z.of_nat k) (set_protein p) df)).
Proof.
  intros Hk. set (T := length thresholds) in *.
  assert (0 < T)%nat as HT by (destruct T; lia).
  assert (k / T < length proteins)%nat as Ha
    by (apply Nat.Div0.div_lt_upper_bound; lia).
  assert (k mod T < T)%nat as Hb by (apply Nat.mod_upper_bound; lia).
  destruct (lookup_lt_is_Some_2 proteins _ Ha) as [p Hp].
  destruct (lookup_lt_is_Some_2 thresholds _ Hb) as [t Ht].
  exists p, t. split_and!; [done..|]. intros df.
  unfold initialize_body, py_mod, len. fold T.
  destruct (Z.eqb_spec (Z.of_nat T) 0) as [?|_]; [lia|]. simpl.
  assert ((if Z.of_nat k `mod` Z.of_nat T =? 0
           then (Z.of_nat k - 1) / Z.of_nat T + 1
           else (Z.of_nat k - 1) / Z.of_nat T)
          = Z.of_nat (k / T)) as ->.
  { rewrite Nat2Z.inj_div.
    destruct (Z.eqb_spec (Z.of_nat k `mod` Z.of_nat T) 0);
      Z.div_mod_to_equations; nia. }
  rewrite (py_getitem_lookup _ _ _ Hp). simpl.
  rewrite <-Nat2Z.inj_mod, (py_getitem_lookup _ _ _ Ht). simpl.
  do 2 f_equal. replace (Z.of_nat (S k) - 1) with (Z.of_nat k) by lia.
  by rewrite Nat2Z.inj_div.
Qed.

Lemma initialize_spec (proteins : list string) (thresholds : list Qc) :
  initialize_proteins_and_thresholds_dataframe proteins thresholds
  = Ok (key_rows proteins thresholds).
Proof.
  unfold initialize_proteins_and_thresholds_dataframe.
  set (n := (length proteins * length thresholds)%nat).
  set (target := key_rows proteins thresholds).
  assert (length target = n) as Hlen by apply length_key_rows.
  destruct (decide (n = 0%nat)) as [Hn|Hn].
  { rewrite Hn. simpl. f_equal. symmetry. apply nil_length_inv. congruence. }
  assert (0 < length thresholds)%nat as HT by (subst n; nia).
  destruct (py_for_invariant
    (λ k st, st = ((Z.of_nat k - 1) / len thresholds,
                   take k target ++ replicate (n - k) zero_row))
    (seqZ 0 (len (replicate n zero_row)))
    (initialize_body proteins thresholds)
    (-1, replicate n zero_row)) as (st & -> & Hst).
  - rewrite take_0, Nat.sub_0_r. simpl. f_equal.
    unfold len. Z.div_mod_to_equations; nia.
  - intros k x st Hx ->. unfold len in Hx. rewrite length_replicate in Hx.
    apply lookup_seqZ in Hx as [-> Hk]. rewrite Z.add_0_l.
    assert (k < n)%nat as Hkn by lia.
    destruct (initialize_step proteins thresholds k Hkn)
      as (p & t & Hp & Ht & ->).
    eexists; split; [done|]. f_equal.
    unfold iloc_set. rewrite Nat2Z.id, list_alter_alter_eq.
    apply (alter_take_replicate _ _ _ _ (MkRow p t 0 0 0 0)); [|done..].
    rewrite (Nat.div_mod_eq k (length thresholds)) at 1.
    rewrite (Nat.mul_comm (length thresholds)).
    by apply lookup_key_rows.
  - simpl. rewrite Hst. unfold len. rewrite length_seqZ, length_replicate.
    rewrite Nat2Z.id, Nat.sub_diag. simpl.
    by rewrite app_nil_r, <-Hlen, firstn_all.
Qed.

(** ** Writing through the composite index *)

Lemma write_write k (f g : Row → Row) r :
  (∀ r, key (f r) = key r) → write k g (write k f r) = write k (g ∘ f) r.
Proof.
  intros Hf. unfold write. destruct (decide (key r = k)) as [Hk|Hk].
  - by rewrite decide_True by (by rewrite Hf).
  - by rewrite decide_False.
Qed.

Lemma loc_set_unique (p : string) (t : Qc) (f : Row → Row) (df : list Row) :
  NoDup (key <$> df) → (p, t) ∈ key <$> df →
  loc_set p t f df
  = Ok (write (p, t) f <$> df).
Proof.
  intros Hnd Hin. unfold loc_set, write.
  destruct (list_find _ df) as [[i r]|] eqn:Hfind.
  - apply list_find_Some in Hfind as (Hi & Hr & _). f_equal.
    apply list_eq. intros j.
    rewrite list_lookup_alter, list_lookup_fmap.
    case_decide as Hij; [subst j; rewrite Hi; simpl; by rewrite decide_True|].
    destruct (df !! j) as [r'|] eqn:Hj; [|done]. simpl.
    rewrite decide_False; [done|]. intros Hr'. apply Hij.
    apply (NoDup_lookup (key <$> df) i j (p, t) Hnd);
      rewrite list_lookup_fmap; [by rewrite Hi; simpl; rewrite Hr
                                |by rewrite Hj; simpl; rewrite Hr'].
  - apply list_find_None in Hfind.
    apply list_elem_of_fmap in Hin as (r & Hr & Hin).
    rewrite Forall_forall in Hfind. by destruct (Hfind r Hin).
Qed.

(** A write to a count column leaves the index as it is. *)
Lemma key_fmap_write (k : string * Qc) (f : Row → Row) (df : list Row) :
  (∀ r, key (f r) = key r) →
  key <$> (write k f <$> df) = key <$> df.
Proof.
  intros Hf. rewrite <-list_fmap_compose. apply list_fmap_ext.
  intros i r _. unfold write. simpl. by case_decide.
Qed.

Lemma dict_get_is_Some {V} (d : list (string * V)) (k : string) :
  k ∈ dict_keys d → is_Some (dict_get d k).
Proof.
  unfold dict_keys. induction d as [|[k' v] d IH]; simpl.
  - by intros ?%elem_of_nil.
  - intros Hk. case_decide; [by eexists|].
    apply IH. apply elem_of_cons in Hk as [?|?]; [congruence|done].
Qed.

Lemma dict_get_Some_elem_of {V} (d : list (string * V)) (k : string) (v : V) :
  dict_get d k = Some v → (k, v) ∈ d.
Proof.
  induction d as [|[k' v'] d IH]; simpl; [done|].
  case_decide; intros ?; simplify_eq; [left|right; auto].
Qed.

Section populate.
Context (prediction_dict : gmap string (gmap string Qc))
        (benchmark_annotations : list (string * list string))
        (term_count : Z).

(** A cell that still holds its zero, or already its value, holds its value
    after the four writes of the loop body. *)
Lemma write_cell (t : Qc) (p : string) (cm : conf_matrix) (r : Row) :
  cm = calculate_confusion_matrix
         (predicted_annotations (default ∅ (prediction_dict !! p)) t)
         (list_to_set (default [] (dict_get benchmark_annotations p))) →
  tn r = 0
  ∨ r = cell_row prediction_dict benchmark_annotations term_count (p, t) →
  MkRow p t (TP cm) (FP cm) (FN cm)
    (if fits_int64 (term_count - sum_values cm)
     then term_count - sum_values cm else tn r)
  = cell_row prediction_dict benchmark_annotations term_count (p, t).
Proof.
  intros -> Hr. unfold cell_row, stored_int64 in *. cbn [fst snd] in *.
  destruct Hr as [-> | ->]; simpl; by destruct (fits_int64 _).
Qed.

Lemma populate_body_spec (t : Qc) (p : string) (df : list Row) :
  NoDup (key <$> df) → (p, t) ∈ key <$> df →
  p ∈ dict_keys benchmark_annotations →
  ∃ cm,
    cm = calculate_confusion_matrix
           (predicted_annotations (default ∅ (prediction_dict !! p)) t)
           (list_to_set (default [] (dict_get benchmark_annotations p))) ∧
    populate_body prediction_dict benchmark_annotations (Some term_count)
      t p df
    = Ok (write (p, t)
            (λ r, MkRow p t (TP cm) (FP cm) (FN cm)
                    (if fits_int64 (term_count - sum_values cm)
                     then term_count - sum_values cm else tn r))
          <$> df).
Proof.
  intros Hnd Hin Hp.
  destruct (dict_get_is_Some _ _ Hp) as [l Hl].
  eexists. split; [reflexivity|].
  unfold populate_body, loc_set_int. rewrite !Hl.
  cbn [py_set py_sub mbind result_bind default].
  set (cm := calculate_confusion_matrix _ _).
  set (v := term_count - sum_values cm).
  assert (∀ r, key ((if fits_int64 v then set_tn v else id) r) = key r)
    as Hkey by (intros r; by destruct (fits_int64 v)).
  rewrite (loc_set_unique p t _ df Hnd Hin).
  cbn [mbind result_bind].
  rewrite loc_set_unique by (by rewrite key_fmap_write).
  cbn [mbind result_bind].
  rewrite loc_set_unique by (by rewrite !key_fmap_write).
  cbn [mbind result_bind].
  rewrite loc_set_unique by (by rewrite !key_fmap_write). f_equal.
  rewrite <-!list_fmap_compose. apply list_fmap_ext. intros i r _.
  cbn [compose]. rewrite !write_write by done. unfold write.
  case_decide as Hk; [|done].
  unfold key in Hk. destruct r; simplify_eq/=. by destruct (fits_int64 v).
Qed.

Lemma populate_body_filled (D : string * Qc → Prop) t p df :
  NoDup (key <$> df) → (p, t) ∈ key <$> df →
  p ∈ dict_keys benchmark_annotations →
  filled (cell_row prediction_dict benchmark_annotations term_count) D df →
  ∃ df',
    populate_body prediction_dict benchmark_annotations (Some term_count)
      t p df = Ok df' ∧
    key <$> df' = key <$> df ∧
    filled (cell_row prediction_dict benchmark_annotations term_count)
      (λ k, D k ∨ k = (p, t)) df'.
Proof.
  intros Hnd Hin Hp HD.
  destruct (populate_body_spec t p df Hnd Hin Hp) as (cm & Hcm & ->).
  eexists; split_and!; [done|..].
  - rewrite <-list_fmap_compose. apply list_fmap_ext.
    intros i r _. unfold write. simpl. case_decide as Hk; [by rewrite Hk|done].
  - intros r' (r & -> & Hr)%list_elem_of_fmap.
    destruct (HD r Hr) as [HDr Hzero]. unfold write.
    case_decide as Hk.
    + rewrite Hk in Hzero. rewrite (write_cell t p cm r Hcm Hzero).
      split; [intros _|right]; done.
    + split; [|done]. intros [?|?]; [by apply HDr|done].
Qed.

Lemma populate_proteins (D : string * Qc → Prop) t ps df :
  NoDup (key <$> df) → (∀ p, p ∈ ps → (p, t) ∈ key <$> df) →
  ps ⊆ dict_keys benchmark_annotations →
  filled (cell_row prediction_dict benchmark_annotations term_count) D df →
  ∃ df',
    py_for ps
      (populate_body prediction_dict benchmark_annotations (Some term_count) t)
      df = Ok df' ∧
    key <$> df' = key <$> df ∧
    filled (cell_row prediction_dict benchmark_annotations term_count)
      (λ k, D k ∨ (k.1 ∈ ps ∧ k.2 = t)) df'.
Proof.
  intros Hnd Hin Hps HD.
  destruct (py_for_invariant
    (λ n df',
       key <$> df' = key <$> df ∧
       filled (cell_row prediction_dict benchmark_annotations term_count)
         (λ k, D k ∨ (k.1 ∈ take n ps ∧ k.2 = t)) df')
    ps
    (populate_body prediction_dict benchmark_annotations (Some term_count) t)
    df) as (df' & Hdf' & Hkeys & Hfilled).
  - split; [done|]. intros r Hr. destruct (HD r Hr) as [HDr Hzero].
    split; [|done]. intros [?|[[]%elem_of_nil _]]. by apply HDr.
  - intros n p df1 Hp [Hk1 HD1].
    assert (p ∈ ps) as Hpin by by eapply list_elem_of_lookup_2.
    assert (NoDup (key <$> df1)) as Hnd1 by by rewrite Hk1.
    assert ((p, t) ∈ key <$> df1) as Hin1 by (rewrite Hk1; by apply Hin).
    destruct (populate_body_filled _ t p df1 Hnd1 Hin1 (Hps p Hpin) HD1)
      as (df2 & Hbody & Hk2 & HD2).
    exists df2. split_and!; [done|congruence|].
    intros r Hr. destruct (HD2 r Hr) as [HDr Hzero].
    split; [|done]. intros HD'. apply HDr.
    rewrite (take_S_r _ _ _ Hp), elem_of_app, list_elem_of_singleton in HD'.
    destruct HD' as [?|[[?|?] ?]]; [left; by left|left; by right|right].
    destruct (key r); by simplify_eq/=.
  - exists df'. split_and!; [done..|].
    by rewrite take_ge in Hfilled.
Qed.

Lemma populate_thresholds ts ps df :
  NoDup (key <$> df) →
  (∀ p t, p ∈ ps → t ∈ ts → (p, t) ∈ key <$> df) →
  ps ⊆ dict_keys benchmark_annotations →
  (∀ r, r ∈ df → tn r = 0) →
  ∃ df',
    py_for ts
      (λ t df,
         py_for ps
           (populate_body prediction_dict benchmark_annotations
              (Some term_count) t) df)
      df = Ok df' ∧
    key <$> df' = key <$> df ∧
    filled (cell_row prediction_dict benchmark_annotations term_count)
      (λ k, k.1 ∈ ps ∧ k.2 ∈ ts) df'.
Proof.
  intros Hnd Hin Hps Hzeros.
  destruct (py_for_invariant
    (λ n df',
       key <$> df' = key <$> df ∧
       filled (cell_row prediction_dict benchmark_annotations term_count)
         (λ k, k.1 ∈ ps ∧ k.2 ∈ take n ts) df')
    ts
    (λ t df,
       py_for ps
         (populate_body prediction_dict benchmark_annotations
            (Some term_count) t) df)
    df) as (df' & Hdf' & Hkeys & Hfilled).
  - split; [done|]. intros r Hr.
    split; [by intros [_ ?%elem_of_nil]|left; by apply Hzeros].
  - intros n t df1 Ht [Hk1 HD1].
    assert (t ∈ ts) as Htin by by eapply list_elem_of_lookup_2.
    assert (NoDup (key <$> df1)) as Hnd1 by by rewrite Hk1.
    assert (∀ p, p ∈ ps → (p, t) ∈ key <$> df1) as Hin1
      by (intros; rewrite Hk1; by apply Hin).
    destruct (populate_proteins _ t ps df1 Hnd1 Hin1 Hps HD1)
      as (df2 & Hbody & Hk2 & HD2).
    exists df2. split_and!; [done|congruence|].
    intros r Hr. destruct (HD2 r Hr) as [HDr Hzero].
    split; [|done]. intros HD'. apply HDr.
    rewrite (take_S_r _ _ _ Ht), elem_of_app, list_elem_of_singleton in HD'.
    destruct HD' as [? [?|?]]; [by left|by right].
  - exists df'. split_and!; [done..|].
    by rewrite take_ge in Hfilled.
Qed.
End populate.

(** ** The extracted thresholds *)

Lemma elem_of_threshold_set (prediction_dict : gmap string (gmap string Qc))
    (t : Qc) :
  t ∈ threshold_set prediction_dict ↔
  ∃ protein scores term,
    prediction_dict !! protein = Some scores ∧ scores !! term = Some t.
Proof.
  unfold threshold_set. rewrite elem_of_union_list. split.
  - intros (X & HX & Ht).
    apply list_elem_of_fmap in HX as (scores & -> & Hs).
    apply list_elem_of_fmap in Hs as ([protein scores'] & -> & Hs).
    apply elem_of_map_to_list in Hs.
    apply elem_of_map_img in Ht as (term & Ht). by exists protein, scores', term.
  - intros (protein & scores & term & Hp & Ht).
    exists (map_img scores). split; [|by eapply elem_of_map_img_2].
    apply list_elem_of_fmap. exists scores. split; [done|].
    apply list_elem_of_fmap. exists (protein, scores). split; [done|].
    by apply elem_of_map_to_list.
Qed.

Lemma set_order_elements : set_order elements.
Proof. by intros s. Qed.

Section thresholds.
Context (py_list : gset Qc → list Qc) (Horder : set_order py_list).
Context (prediction_dict : gmap string (gmap string Qc)).

Lemma thresholds_Permutation :
  distinct_prediction_thresholds_with py_list prediction_dict
  ≡ₚ elements (threshold_set prediction_dict).
Proof.
  unfold distinct_prediction_thresholds_with, py_sorted.
  etrans; [apply merge_sort_Permutation|apply Horder].
Qed.

Lemma elem_of_thresholds t :
  t ∈ distinct_prediction_thresholds_with py_list prediction_dict ↔
  t ∈ threshold_set prediction_dict.
Proof. by rewrite thresholds_Permutation, elem_of_elements. Qed.

Lemma NoDup_thresholds :
  NoDup (distinct_prediction_thresholds_with py_list prediction_dict).
Proof. rewrite thresholds_Permutation. apply NoDup_elements. Qed.

Lemma StronglySorted_thresholds :
  StronglySorted Qcle
    (distinct_prediction_thresholds_with py_list prediction_dict).
Proof. apply (StronglySorted_merge_sort Qcle). Qed.
End thresholds.

(** A duplicate-free list sorted by [<=] is strictly ascending. *)
Lemma StronglySorted_strict (l : list Qc) :
  StronglySorted Qcle l → NoDup l → StronglySorted Qclt l.
Proof.
  induction 1 as [|x l Hl IH Hx]; intros Hnd; [constructor|].
  apply NoDup_cons in Hnd as [Hxl Hnd]. constructor; [by apply IH|].
  rewrite Forall_forall in Hx |- *. intros y Hy.
  destruct (Qcle_lt_or_eq _ _ (Hx y Hy)) as [?|Heq]; [done|].
  subst y. by destruct Hxl.
Qed.

(** ** The populated table *)

Lemma elem_of_keys (proteins : list string) (thresholds : list Qc) p t :
  (p, t) ∈ key <$> key_rows proteins thresholds ↔
  p ∈ proteins ∧ t ∈ thresholds.
Proof.
  rewrite list_elem_of_fmap. split.
  - intros (r & Hk & (p' & t' & -> & ? & ?)%elem_of_key_rows).
    unfold key in Hk. by simplify_eq/=.
  - intros [Hp Ht]. exists (MkRow p t 0 0 0 0). split; [done|].
    apply elem_of_key_rows. by exists p, t.
Qed.

Lemma key_key_rows (proteins : list string) (thresholds : list Qc) :
  key <$> key_rows proteins thresholds
  = p ← proteins; (λ t, (p, t)) <$> thresholds.
Proof.
  unfold key_rows. induction proteins as [|p ps IH]; [done|].
  rewrite !bind_cons, fmap_app, IH. f_equal.
  by rewrite <-list_fmap_compose.
Qed.

Lemma NoDup_keys (proteins : list string) (thresholds : list Qc) :
  NoDup proteins → NoDup thresholds →
  NoDup (key <$> key_rows proteins thresholds).
Proof.
  intros Hps Hts. rewrite key_key_rows. apply NoDup_bind; [| |done].
  - intros p1 p2 k _ _ (t1 & -> & _)%list_elem_of_fmap
      (t2 & ? & _)%list_elem_of_fmap. by simplify_eq.
  - intros p _. apply NoDup_fmap_2_strong; [|done].
    intros t1 t2 _ _ ?. by simplify_eq.
Qed.

Lemma dataframe_spec py_list prediction_dict benchmark_dict anns c :
  set_order py_list →
  protein_annotations benchmark_dict = Some anns →
  NoDup (dict_keys anns) →
  benchmark_ontology_term_count benchmark_dict = Some c →
  get_confusion_matrix_dataframe_with py_list prediction_dict benchmark_dict
  = Ok (insert_metadata (benchmark_ontology benchmark_dict)
          (benchmark_taxon_id benchmark_dict) (benchmark_taxon benchmark_dict)
          (populated_rows py_list prediction_dict anns c)).
Proof.
  intros Horder Hanns Hnd Hc.
  unfold get_confusion_matrix_dataframe_with. rewrite Hanns, Hc.
  rewrite initialize_spec. cbn [mbind result_bind].
  set (ts := distinct_prediction_thresholds_with py_list prediction_dict).
  set (ps := dict_keys anns).
  destruct (populate_thresholds prediction_dict anns c ts ps (key_rows ps ts))
    as (df & -> & Hkeys & Hfilled).
  - apply NoDup_keys; [done|by apply NoDup_thresholds].
  - intros p t ??. by apply elem_of_keys.
  - done.
  - by intros r (p & t & -> & _)%elem_of_key_rows.
  - cbn [mbind result_bind]. do 2 f_equal.
    unfold populated_rows. fold ps ts. rewrite <-Hkeys, <-list_fmap_compose.
    rewrite <-(list_fmap_id df) at 1. apply list_fmap_ext.
    intros i r Hr. simpl.
    apply (Hfilled r); [by eapply list_elem_of_lookup_2|].
    apply elem_of_keys. rewrite <-Hkeys.
    apply list_elem_of_fmap. exists r. split; [by destruct r|].
    by eapply list_elem_of_lookup_2.
Qed.

Lemma elem_of_populated_rows py_list prediction_dict anns c (r : Row) :
  r ∈ populated_rows py_list prediction_dict anns c ↔
  ∃ p t, p ∈ dict_keys anns ∧
         t ∈ distinct_prediction_thresholds_with py_list prediction_dict ∧
         r = cell_row prediction_dict anns c (p, t).
Proof.
  unfold populated_rows. rewrite list_elem_of_fmap. split.
  - intros ([p t] & -> & [??]%elem_of_keys). by exists p, t.
  - intros (p & t & ? & ? & ->). exists (p, t). split; [done|].
    by apply elem_of_keys.
Qed.

Lemma elem_of_insert_metadata o i t (df : list Row) (row : ConfusionRow) :
  row ∈ insert_metadata o i t df ↔
  ontology row = o ∧ taxon_id row = i ∧ taxon row = t ∧ counts row ∈ df.
Proof.
  unfold insert_metadata. rewrite list_elem_of_fmap. split.
  - by intros (r & -> & ?).
  - intros (<- & <- & <- & ?). exists (counts row). by destruct row.
Qed.

Lemma populate_body_no_count prediction_dict anns t p df :
  ∃ e, populate_body prediction_dict anns None t p df = Raise e.
Proof. unfold populate_body. destruct (py_set _); simpl; eauto. Qed.

(** Without a term count no cell can be computed: the populator returns only
    when the table has no rows. *)
Lemma dataframe_no_term_count py_list prediction_dict benchmark_dict df :
  benchmark_ontology_term_count benchmark_dict = None →
  get_confusion_matrix_dataframe_with py_list prediction_dict benchmark_dict
  = Ok df →
  df = [].
Proof.
  intros Hc. unfold get_confusion_matrix_dataframe_with. rewrite Hc.
  destruct (protein_annotations benchmark_dict) as [anns|]; [|done].
  rewrite initialize_spec. cbn [mbind result_bind].
  set (ts := distinct_prediction_thresholds_with py_list prediction_dict).
  destruct (dict_keys anns) as [|p ps] eqn:Hps.
  - assert (∀ ts' : list Qc,
      py_for ts' (λ t df, py_for [] (populate_body prediction_dict anns None t)
                            df) [] = Ok ([] : list Row)) as ->
      by (induction ts' as [|? ? IH]; [done|apply IH]).
    cbn [mbind result_bind]. by intros [= <-].
  - destruct ts as [|t ts'].
    + assert (key_rows (p :: ps) [] = []) as ->
        by (apply nil_length_inv; rewrite length_key_rows; simpl; lia).
      by intros [= <-].
    + cbn [py_for].
      by destruct (populate_body_no_count prediction_dict anns t p
                     (key_rows (p :: ps) (t :: ts'))) as [e ->].
Qed.

(** ** Properties of the calculator *)

Lemma elem_of_predicted_annotations (scores : gmap string Qc) (t : Qc)
    (term : string) :
  term ∈ predicted_annotations scores t ↔
  ∃ v, scores !! term = Some v ∧ (t ≤ v)%Qc.
Proof.
  unfold predicted_annotations. rewrite elem_of_dom. unfold is_Some.
  setoid_rewrite map_lookup_filter_Some. naive_solver.
Qed.

Lemma predicted_annotations_anti (scores : gmap string Qc) (t1 t2 : Qc) :
  (t1 ≤ t2)%Qc →
  predicted_annotations scores t2 ⊆ predicted_annotations scores t1.
Proof.
  intros Hle term (v & Hv & Ht2)%elem_of_predicted_annotations.
  apply elem_of_predicted_annotations. exists v. split; [done|].
  by eapply Qcle_trans.
Qed.

Lemma calculate_confusion_matrix_mono (predicted1 predicted2 bench : gset string) :
  predicted2 ⊆ predicted1 →
  FP (calculate_confusion_matrix predicted2 bench)
    ≤ FP (calculate_confusion_matrix predicted1 bench) ∧
  FN (calculate_confusion_matrix predicted1 bench)
    ≤ FN (calculate_confusion_matrix predicted2 bench).
Proof.
  intros Hsub. unfold calculate_confusion_matrix, py_len. simpl.
  split; apply inj_le, subseteq_size; set_solver.
Qed.

(** C10: the three term sets of [get_confusion_matrix_terms] are pairwise
    disjoint, TP and FP together make up the predicted set, TP and FN
    together make up the benchmark set, and so for the counts of
    [calculate_confusion_matrix] TP + FP is the size of the predicted set and
    TP + FN the size of the benchmark set. *)
Theorem confusion_terms_partition (predicted benchmark_terms : gset string) :
  let terms := get_confusion_matrix_terms predicted benchmark_terms in
  let cm := calculate_confusion_matrix predicted benchmark_terms in
  TP_terms terms ## FP_terms terms ∧
  TP_terms terms ## FN_terms terms ∧
  FP_terms terms ## FN_terms terms ∧
  TP_terms terms ∪ FP_terms terms = predicted ∧
  TP_terms terms ∪ FN_terms terms = benchmark_terms ∧
  TP cm + FP cm = py_len predicted ∧
  TP cm + FN cm = py_len benchmark_terms.
Proof.
  unfold calculate_confusion_matrix, get_confusion_matrix_terms, py_len.
  simpl.
  assert (predicted ∩ benchmark_terms ∪ predicted ∖ benchmark_terms
          = predicted) as Hp.
  { apply set_eq. intros x. destruct (decide (x ∈ benchmark_terms)); set_solver. }
  assert (predicted ∩ benchmark_terms ∪ benchmark_terms ∖ predicted
          = benchmark_terms) as Hb.
  { apply set_eq. intros x. destruct (decide (x ∈ predicted)); set_solver. }
  split_and!; [set_solver..|done|done| |].
  - rewrite <-Nat2Z.inj_add, <-size_union by set_solver. by rewrite Hp.
  - rewrite <-Nat2Z.inj_add, <-size_union by set_solver. by rewrite Hb.
Qed.

Lemma py_len_list_to_set_filter (P : string → Prop) `{!∀ x, Decision (P x)}
    (l : list string) (X : gset string) :
  (∀ x, x ∈ X ↔ x ∈ l ∧ P x) → py_len X = count_distinct P l.
Proof.
  intros HX. unfold py_len, count_distinct, len. f_equal.
  rewrite <-(size_list_to_set (C:=gset string)) by apply NoDup_remove_dups.
  f_equal. apply set_eq. intros x.
  by rewrite HX, elem_of_list_to_set, elem_of_remove_dups, list_elem_of_filter,
    (comm (∧)).
Qed.

(** C5: [calculate_confusion_matrix] returns the sizes of the intersection and
    of the two differences; on sets built from sequences these are the
    numbers of distinct predicted terms inside the benchmark, of distinct
    predicted terms outside it and of distinct benchmark terms not predicted;
    and two pairs of sequences with the same elements, in whatever order and
    multiplicity, give the same counts. *)
Theorem calculate_confusion_matrix_counts :
  (∀ predicted benchmark_terms : gset string,
     calculate_confusion_matrix predicted benchmark_terms
     = {| TP := Z.of_nat (size (predicted ∩ benchmark_terms));
          FP := Z.of_nat (size (predicted ∖ benchmark_terms));
          FN := Z.of_nat (size (benchmark_terms ∖ predicted)) |}) ∧
  (∀ l1 l2 : list string,
     calculate_confusion_matrix (list_to_set l1) (list_to_set l2)
     = {| TP := count_distinct (λ x, x ∈ l2) l1;
          FP := count_distinct (λ x, x ∉ l2) l1;
          FN := count_distinct (λ x, x ∉ l1) l2 |}) ∧
  (∀ l1 l1' l2 l2' : list string,
     (∀ x, x ∈ l1 ↔ x ∈ l1') → (∀ x, x ∈ l2 ↔ x ∈ l2') →
     calculate_confusion_matrix (list_to_set l1) (list_to_set l2)
     = calculate_confusion_matrix (list_to_set l1') (list_to_set l2')).
Proof.
  split_and!.
  - done.
  - intros l1 l2. unfold calculate_confusion_matrix. simpl.
    f_equal; apply py_len_list_to_set_filter; set_solver.
  - intros l1 l1' l2 l2' H1 H2.
    assert (list_to_set l1 =@{gset string} list_to_set l1') as ->
      by (apply set_eq; intros x; by rewrite !elem_of_list_to_set).
    assert (list_to_set l2 =@{gset string} list_to_set l2') as ->
      by (apply set_eq; intros x; by rewrite !elem_of_list_to_set).
    done.
Qed.

Lemma calculate_confusion_matrix_counts_witness :
  calculate_confusion_matrix
    (list_to_set ["GO:2"; "GO:1"; "GO:2"]) (list_to_set ["GO:1"; "GO:3"])
  = calculate_confusion_matrix
      (list_to_set ["GO:1"; "GO:2"]) (list_to_set ["GO:3"; "GO:3"; "GO:1"]).
Proof.
  apply (proj2 (proj2 calculate_confusion_matrix_counts)).
  - intros x. rewrite !elem_of_cons, elem_of_nil. tauto.
  - intros x. rewrite !elem_of_cons, elem_of_nil. tauto.
Defined.

(** ** Properties of the populator *)

Lemma scenario_benchmark_ok :
  benchmark_ok scenario_benchmark [("P1", ["GO:1"; "GO:3"])] 10.
Proof. split_and!; [done|apply NoDup_singleton|done]. Qed.

Lemma cell_row_eq prediction_dict anns c p t terms :
  dict_get anns p = Some terms →
  cell_row prediction_dict anns c (p, t)
  = let cm := calculate_confusion_matrix
                (predicted_annotations (default ∅ (prediction_dict !! p)) t)
                (list_to_set terms) in
    MkRow p t (TP cm) (FP cm) (FN cm) (stored_int64 (c - sum_values cm)).
Proof. intros Hp. unfold cell_row. simpl. by rewrite Hp. Qed.

Lemma stored_int64_fits (v : Z) :
  int64_min ≤ v ≤ int64_max → stored_int64 v = v.
Proof.
  intros Hv. unfold stored_int64, fits_int64.
  by rewrite (proj2 (Z.leb_le _ _) (proj1 Hv)),
    (proj2 (Z.leb_le _ _) (proj2 Hv)).
Qed.

Lemma stored_int64_overflow (v : Z) :
  ¬ (int64_min ≤ v ≤ int64_max) → stored_int64 v = 0.
Proof.
  intros Hv. unfold stored_int64, fits_int64.
  destruct (int64_min <=? v) eqn:Hmin; [|done].
  destruct (v <=? int64_max) eqn:Hmax; [|done].
  destruct Hv. split; by apply Z.leb_le.
Qed.

Lemma stored_int64_cases (v : Z) :
  (int64_min ≤ v ≤ int64_max ∧ stored_int64 v = v) ∨
  (¬ (int64_min ≤ v ≤ int64_max) ∧ stored_int64 v = 0).
Proof.
  destruct (decide (int64_min ≤ v ≤ int64_max)) as [Hv|Hv].
  - left. by rewrite stored_int64_fits.
  - right. by rewrite stored_int64_overflow.
Qed.

(** The rows of the returned table, one by one. *)
Lemma dataframe_rows prediction_dict benchmark_dict anns c :
  benchmark_ok benchmark_dict anns c →
  ∃ df,
    get_confusion_matrix_dataframe prediction_dict benchmark_dict = Ok df ∧
    ∀ row, row ∈ df ↔
      ontology row = benchmark_ontology benchmark_dict ∧
      taxon_id row = benchmark_taxon_id benchmark_dict ∧
      taxon row = benchmark_taxon benchmark_dict ∧
      ∃ p t terms,
        dict_get anns p = Some terms ∧
        t ∈ distinct_prediction_thresholds_with elements prediction_dict ∧
        counts row = cell_row prediction_dict anns c (p, t).
Proof.
  intros (Hanns & Hnd & Hc). eexists. split.
  { by apply dataframe_spec; [apply set_order_elements|..]. }
  intros row. rewrite elem_of_insert_metadata, elem_of_populated_rows.
  split.
  - intros (? & ? & ? & p & t & Hp & Ht & Hrow). split_and!; [done..|].
    destruct (dict_get_is_Some _ _ Hp) as [terms Hterms]. by exists p, t, terms.
  - intros (? & ? & ? & p & t & terms & Hp & Ht & Hrow). split_and!; [done..|].
    exists p, t. split_and!; [|done..].
    apply dict_get_Some_elem_of in Hp. unfold dict_keys.
    apply list_elem_of_fmap. by exists (p, terms).
Qed.

(** Scenario A of the specification. *)
Example scenario_table :
  get_confusion_matrix_dataframe scenario_predictions scenario_benchmark
  = Ok [ MkConfusionRow (Some "X") (Some 1) (Some "T")
           (MkRow "P1" (score 1 2) 1 1 1 7);
         MkConfusionRow (Some "X") (Some 1) (Some "T")
           (MkRow "P1" (score 9 10) 0 1 2 7) ].
Proof. vm_compute. reflexivity. Qed.

Example huge_count_table :
  get_confusion_matrix_dataframe scenario_predictions huge_count_benchmark
  = Ok [ huge_count_row;
         MkConfusionRow (Some "X") (Some 1) (Some "T")
           (MkRow "P1" (score 9 10) 0 1 2 0) ].
Proof. vm_compute. reflexivity. Qed.

(** C1, as stated, fails for a term count that the [int64] column [tn]
    cannot hold: with the count 2^63 + 5 the value 2^63 + 2 is not stored,
    the rows keep the TN = 0 of the initializer and the four counts of a
    row add up to 3. *)
Lemma huge_term_count_breaks_sum :
  ¬ (∀ df row c,
       get_confusion_matrix_dataframe scenario_predictions huge_count_benchmark
       = Ok df →
       row ∈ df →
       benchmark_ontology_term_count huge_count_benchmark = Some c →
       tp (counts row) + fp (counts row) + fn (counts row) + tn (counts row)
       = c).
Proof.
  intros Hsum.
  specialize (Hsum _ huge_count_row (2 ^ 63 + 5) huge_count_table).
  discriminate Hsum; [by left|reflexivity].
Qed.

(** C1 (amended): with a term count in the benchmark a table is returned; on
    each of its rows, when the term count minus [tp + fp + fn] is a value
    of the [int64] column, [tn] is that value and the four counts add up to
    [benchmark_ontology_term_count]; when it is not, [tn] is 0.  The value
    fits whenever the term count lies between 0 and 2^63 - 1 and
    [tp + fp + fn] is at most 2^63. *)
Theorem confusion_counts_sum_to_term_count prediction_dict benchmark_dict anns :
  protein_annotations benchmark_dict = Some anns →
  NoDup (dict_keys anns) →
  (∀ c, benchmark_ontology_term_count benchmark_dict = Some c →
     ∃ df, get_confusion_matrix_dataframe prediction_dict benchmark_dict
           = Ok df) ∧
  (∀ df row,
     get_confusion_matrix_dataframe prediction_dict benchmark_dict = Ok df →
     row ∈ df →
     ∃ c, benchmark_ontology_term_count benchmark_dict = Some c ∧
          (int64_min
             ≤ c - (tp (counts row) + fp (counts row) + fn (counts row))
             ≤ int64_max →
           tn (counts row)
           = c - (tp (counts row) + fp (counts row) + fn (counts row)) ∧
           tp (counts row) + fp (counts row) + fn (counts row)
             + tn (counts row) = c) ∧
          (¬ (int64_min
                ≤ c - (tp (counts row) + fp (counts row) + fn (counts row))
                ≤ int64_max) →
           tn (counts row) = 0) ∧
          (0 ≤ c ≤ int64_max →
           tp (counts row) + fp (counts row) + fn (counts row) ≤ 2 ^ 63 →
           tp (counts row) + fp (counts row) + fn (counts row)
             + tn (counts row) = c)).
Proof.
  intros Hanns Hnd. split.
  - intros c Hc.
    destruct (dataframe_rows prediction_dict benchmark_dict anns c)
      as (df & Hdf & _); [done|by exists df].
  - intros df row Hdf Hrow.
    destruct (benchmark_ontology_term_count benchmark_dict) as [c|] eqn:Hc.
    + exists c. split; [done|].
      destruct (dataframe_rows prediction_dict benchmark_dict anns c)
        as (df' & Hdf' & Hrows); [done|].
      rewrite Hdf in Hdf'. injection Hdf' as <-.
      destruct (proj1 (Hrows row) Hrow)
        as (_ & _ & _ & p & t & terms & Hp & _ & Hcell).
      rewrite Hcell, (cell_row_eq _ _ _ _ _ _ Hp).
      unfold sum_values, calculate_confusion_matrix, py_len. simpl.
      split_and!.
      * intros Hfits. rewrite stored_int64_fits by done. lia.
      * intros Hfits. by rewrite stored_int64_overflow.
      * intros Hcount Hsum. rewrite stored_int64_fits; [lia|].
        unfold int64_min, int64_max in *. lia.
    + apply dataframe_no_term_count in Hdf as ->; [|done].
      by apply elem_of_nil in Hrow.
Qed.

Lemma confusion_counts_sum_to_term_count_witness :
  (∃ df, get_confusion_matrix_dataframe scenario_predictions scenario_benchmark
         = Ok df) ∧
  ∃ c, benchmark_ontology_term_count scenario_benchmark = Some c ∧
       tn (counts scenario_row_low)
       = c - (tp (counts scenario_row_low) + fp (counts scenario_row_low)
              + fn (counts scenario_row_low)) ∧
       tp (counts scenario_row_low) + fp (counts scenario_row_low)
         + fn (counts scenario_row_low) + tn (counts scenario_row_low) = c.
Proof.
  destruct (confusion_counts_sum_to_term_count scenario_predictions
              scenario_benchmark [("P1", ["GO:1"; "GO:3"])])
    as [Hreturns Hrows]; [reflexivity|apply NoDup_singleton|].
  split; [by apply (Hreturns 10)|].
  destruct (Hrows _ scenario_row_low scenario_table) as (c & Hc & Hfits & _);
    [by left|].
  exists c. split; [exact Hc|]. apply Hfits.
  injection Hc as <-. vm_compute. split; discriminate.
Defined.

(** C2: the predicted-at-threshold set holds exactly the terms whose score is
    greater than or equal to the threshold, so a term scored exactly at the
    threshold is in it; and the counts of every row of the returned table are
    those of this set against the protein's benchmark terms. *)
Theorem threshold_boundary_inclusive prediction_dict benchmark_dict anns c :
  benchmark_ok benchmark_dict anns c →
  (∀ (scores : gmap string Qc) (t : Qc) (term : string),
     term ∈ predicted_annotations scores t ↔
     ∃ v, scores !! term = Some v ∧ (t ≤ v)%Qc) ∧
  (∀ (scores : gmap string Qc) (t : Qc) (term : string),
     scores !! term = Some t → term ∈ predicted_annotations scores t) ∧
  ∃ df,
    get_confusion_matrix_dataframe prediction_dict benchmark_dict = Ok df ∧
    ∀ row, row ∈ df →
      ∃ terms predicted,
        dict_get anns (protein (counts row)) = Some terms ∧
        (∀ term, term ∈ predicted ↔
           ∃ scores v,
             prediction_dict !! protein (counts row) = Some scores ∧
             scores !! term = Some v ∧ (threshold (counts row) ≤ v)%Qc) ∧
        tp (counts row) = py_len (predicted ∩ list_to_set terms) ∧
        fp (counts row) = py_len (predicted ∖ list_to_set terms) ∧
        fn (counts row) = py_len (list_to_set terms ∖ predicted).
Proof.
  intros Hok. split_and!.
  - apply elem_of_predicted_annotations.
  - intros scores t term Ht. apply elem_of_predicted_annotations.
    exists t. split; [done|apply Qcle_refl].
  - destruct (dataframe_rows prediction_dict benchmark_dict anns c Hok)
      as (df & Hdf & Hrows).
    exists df. split; [done|]. intros row Hrow.
    destruct (proj1 (Hrows row) Hrow)
      as (_ & _ & _ & p & t & terms & Hp & _ & Hcell).
    rewrite Hcell, (cell_row_eq _ _ _ _ _ _ Hp). simpl.
    exists terms,
      (predicted_annotations (default ∅ (prediction_dict !! p)) t).
    split_and!; [done| |done..].
    intros term. rewrite elem_of_predicted_annotations.
    destruct (prediction_dict !! p) as [scores|]; simpl.
    + split; [intros (v & ? & ?); by exists scores, v|].
      intros (? & v & [= <-] & ? & ?). by exists v.
    + split; [by intros (v & ? & ?)|by intros (? & ? & ? & _)].
Qed.

Lemma threshold_boundary_inclusive_witness :
  "GO:1" ∈ predicted_annotations
             {[ "GO:1" := score 1 2; "GO:2" := score 9 10 ]} (score 1 2) ∧
  ∃ df,
    get_confusion_matrix_dataframe scenario_predictions scenario_benchmark
    = Ok df ∧
    ∀ row, row ∈ df →
      ∃ terms predicted,
        dict_get [("P1", ["GO:1"; "GO:3"])] (protein (counts row))
        = Some terms ∧
        (∀ term, term ∈ predicted ↔
           ∃ scores v,
             scenario_predictions !! protein (counts row) = Some scores ∧
             scores !! term = Some v ∧ (threshold (counts row) ≤ v)%Qc) ∧
        tp (counts row) = py_len (predicted ∩ list_to_set terms) ∧
        fp (counts row) = py_len (predicted ∖ list_to_set terms) ∧
        fn (counts row) = py_len (list_to_set terms ∖ predicted).
Proof.
  destruct (threshold_boundary_inclusive scenario_predictions
              scenario_benchmark _ _ scenario_benchmark_ok)
    as (_ & Hboundary & Htable).
  split; [|exact Htable]. apply Hboundary. reflexivity.
Defined.

Example huge_count_b_table :
  get_confusion_matrix_dataframe scenario_predictions huge_count_b_benchmark
  = Ok [ MkConfusionRow (Some "X") (Some 1) (Some "T")
           (MkRow "P1" (score 1 2) 1 1 1 0);
         MkConfusionRow (Some "X") (Some 1) (Some "T")
           (MkRow "P1" (score 9 10) 0 1 2 0);
         huge_count_row_b;
         MkConfusionRow (Some "X") (Some 1) (Some "T")
           (MkRow "P2" (score 9 10) 0 0 2 0) ].
Proof. vm_compute. reflexivity. Qed.

(** C4, as stated, fails for a term count that the [int64] column [tn]
    cannot hold: with the count 2^63 + 5 the rows of the unpredicted
    protein P2 have FN = 2 and keep the TN = 0 of the initializer, not the
    term count minus FN. *)
Lemma huge_term_count_breaks_unpredicted :
  ¬ (∀ df row,
       get_confusion_matrix_dataframe scenario_predictions
         huge_count_b_benchmark = Ok df →
       row ∈ df →
       protein (counts row) = "P2" →
       tn (counts row) = 2 ^ 63 + 5 - fn (counts row)).
Proof.
  intros Htn.
  specialize (Htn _ huge_count_row_b huge_count_b_table).
  discriminate Htn; [by do 2 right; left|reflexivity].
Qed.

(** C4 (amended): for a protein without an entry in the prediction dictionary
    the predicted set is empty at every threshold; such a benchmark protein
    has a row at every threshold, and each of its rows has TP = 0, FP = 0
    and FN the number of its distinct benchmark terms; its TN is the term
    count minus FN when that is a value of the [int64] column, and 0 when it
    is not; a protein that is not a key of the benchmark annotations has no
    row. *)
Theorem unpredicted_and_unbenchmarked_proteins
    prediction_dict benchmark_dict anns c :
  benchmark_ok benchmark_dict anns c →
  (∀ p t,
     prediction_dict !! p = None →
     predicted_annotations (default ∅ (prediction_dict !! p)) t = ∅) ∧
  ∃ df,
    get_confusion_matrix_dataframe prediction_dict benchmark_dict = Ok df ∧
    (∀ p terms t,
       dict_get anns p = Some terms → prediction_dict !! p = None →
       t ∈ distinct_prediction_thresholds_with elements prediction_dict →
       ∃ row, row ∈ df ∧ protein (counts row) = p ∧
              threshold (counts row) = t) ∧
    (∀ row terms,
       row ∈ df →
       dict_get anns (protein (counts row)) = Some terms →
       prediction_dict !! protein (counts row) = None →
       tp (counts row) = 0 ∧ fp (counts row) = 0 ∧
       fn (counts row) = py_len (list_to_set terms) ∧
       (int64_min ≤ c - fn (counts row) ≤ int64_max →
        tn (counts row) = c - fn (counts row)) ∧
       (¬ (int64_min ≤ c - fn (counts row) ≤ int64_max) →
        tn (counts row) = 0)) ∧
    (∀ p row, p ∉ dict_keys anns → row ∈ df → protein (counts row) ≠ p).
Proof.
  intros Hok.
  assert (∀ t, predicted_annotations ∅ t = ∅) as Hempty.
  { intros t. apply set_eq. intros term.
    rewrite elem_of_predicted_annotations.
    split; [by intros (? & ? & _)|by intros ?%not_elem_of_empty]. }
  split; [by intros p t ->|].
  destruct (dataframe_rows prediction_dict benchmark_dict anns c Hok)
    as (df & Hdf & Hrows).
  exists df. split_and!; [done|..].
  - intros p terms t Hp _ Ht.
    exists (MkConfusionRow (benchmark_ontology benchmark_dict)
              (benchmark_taxon_id benchmark_dict)
              (benchmark_taxon benchmark_dict)
              (cell_row prediction_dict anns c (p, t))).
    split; [|done]. apply Hrows. split_and!; [done..|]. by exists p, t, terms.
  - intros row terms Hrow Hterms Hnone.
    destruct (proj1 (Hrows row) Hrow)
      as (_ & _ & _ & p & t & terms' & Hp & _ & Hcell).
    rewrite Hcell, (cell_row_eq _ _ _ _ _ _ Hp) in *. simpl in *.
    rewrite Hnone. simpl. simplify_eq. rewrite Hempty.
    unfold calculate_confusion_matrix, sum_values, py_len. simpl.
    assert (∅ ∩ list_to_set terms =@{gset string} ∅) as -> by set_solver.
    assert (∅ ∖ list_to_set terms =@{gset string} ∅) as -> by set_solver.
    assert (list_to_set terms ∖ ∅ =@{gset string} list_to_set terms) as ->
      by set_solver.
    rewrite size_empty. split_and!; [done..| |]; intros Hfits.
    + rewrite stored_int64_fits; lia.
    + apply stored_int64_overflow. intros Hfits'. apply Hfits. lia.
  - intros p row Hp Hrow <-.
    destruct (proj1 (Hrows row) Hrow)
      as (_ & _ & _ & p & t & terms' & Hp' & _ & Hcell).
    rewrite Hcell in Hp. simpl in Hp. apply Hp.
    apply dict_get_Some_elem_of in Hp'. unfold dict_keys.
    apply list_elem_of_fmap. by exists (p, terms').
Qed.

Lemma scenario_b_benchmark_ok :
  benchmark_ok scenario_b_benchmark
    [("P1", ["GO:1"; "GO:3"]); ("P2", ["GO:4"; "GO:4"; "GO:5"])] 10.
Proof.
  split_and!; [done| |done]. unfold dict_keys. simpl.
  apply NoDup_cons. split; [|apply NoDup_singleton].
  by intros [=]%list_elem_of_singleton.
Qed.

Lemma unpredicted_and_unbenchmarked_proteins_witness :
  ∃ df,
    get_confusion_matrix_dataframe scenario_predictions scenario_b_benchmark
    = Ok df ∧
    ∀ row,
      row ∈ df → protein (counts row) = "P2" →
      tp (counts row) = 0 ∧ fp (counts row) = 0 ∧ fn (counts row) = 2 ∧
      tn (counts row) = 10 - fn (counts row).
Proof.
  destruct (unpredicted_and_unbenchmarked_proteins scenario_predictions
              scenario_b_benchmark _ _ scenario_b_benchmark_ok)
    as (_ & df & Hdf & _ & Hrows & _).
  exists df. split; [exact Hdf|]. intros row Hrow Hp.
  destruct (Hrows row ["GO:4"; "GO:4"; "GO:5"] Hrow)
    as (Htp & Hfp & Hfn & Htn & _); [rewrite Hp; reflexivity..|].
  split_and!; [exact Htp|exact Hfp|exact Hfn|].
  apply Htn. rewrite Hfn. vm_compute. split; discriminate.
Defined.

(** C7: raising the threshold can only shrink the predicted set; a smaller
    predicted set has no more false positives and no fewer false negatives;
    so among the rows of one protein in the returned table, a row at a higher
    threshold has an FP count no larger and an FN count no smaller. *)
Theorem counts_monotone_in_threshold prediction_dict benchmark_dict anns c :
  benchmark_ok benchmark_dict anns c →
  (∀ (scores : gmap string Qc) (t1 t2 : Qc),
     (t1 ≤ t2)%Qc →
     predicted_annotations scores t2 ⊆ predicted_annotations scores t1) ∧
  (∀ predicted1 predicted2 benchmark_terms : gset string,
     predicted2 ⊆ predicted1 →
     FP (calculate_confusion_matrix predicted2 benchmark_terms)
       ≤ FP (calculate_confusion_matrix predicted1 benchmark_terms) ∧
     FN (calculate_confusion_matrix predicted1 benchmark_terms)
       ≤ FN (calculate_confusion_matrix predicted2 benchmark_terms)) ∧
  StronglySorted Qclt
    (distinct_prediction_thresholds_with elements prediction_dict) ∧
  ∃ df,
    get_confusion_matrix_dataframe prediction_dict benchmark_dict = Ok df ∧
    ∀ row1 row2,
      row1 ∈ df → row2 ∈ df →
      protein (counts row1) = protein (counts row2) →
      (threshold (counts row1) ≤ threshold (counts row2))%Qc →
      fp (counts row2) ≤ fp (counts row1) ∧
      fn (counts row1) ≤ fn (counts row2).
Proof.
  intros Hok. split_and!.
  - apply predicted_annotations_anti.
  - apply calculate_confusion_matrix_mono.
  - apply StronglySorted_strict.
    + apply StronglySorted_thresholds.
    + apply NoDup_thresholds, set_order_elements.
  - destruct (dataframe_rows prediction_dict benchmark_dict anns c Hok)
      as (df & Hdf & Hrows).
    exists df. split; [done|]. intros row1 row2 Hrow1 Hrow2.
    destruct (proj1 (Hrows row1) Hrow1)
      as (_ & _ & _ & p1 & t1 & terms1 & Hp1 & _ & ->).
    destruct (proj1 (Hrows row2) Hrow2)
      as (_ & _ & _ & p2 & t2 & terms2 & Hp2 & _ & ->).
    rewrite (cell_row_eq _ _ _ _ _ _ Hp1), (cell_row_eq _ _ _ _ _ _ Hp2).
    simpl. intros -> Hle. simplify_eq.
    by apply calculate_confusion_matrix_mono, predicted_annotations_anti.
Qed.

Lemma counts_monotone_in_threshold_witness :
  ∃ df,
    get_confusion_matrix_dataframe scenario_predictions scenario_benchmark
    = Ok df ∧
    ∀ row1 row2,
      row1 ∈ df → row2 ∈ df →
      protein (counts row1) = protein (counts row2) →
      (threshold (counts row1) ≤ threshold (counts row2))%Qc →
      fp (counts row2) ≤ fp (counts row1) ∧
      fn (counts row1) ≤ fn (counts row2).
Proof.
  exact (proj2 (proj2 (proj2 (counts_monotone_in_threshold scenario_predictions
                                scenario_benchmark _ _ scenario_benchmark_ok)))).
Defined.





Lemma thresholds_order_irrelevant py_list1 py_list2 prediction_dict :
  set_order py_list1 → set_order py_list2 →
  distinct_prediction_thresholds_with py_list1 prediction_dict
  = distinct_prediction_thresholds_with py_list2 prediction_dict.
Proof.
  intros H1 H2. apply (StronglySorted_unique Qcle).
  - by apply StronglySorted_thresholds.
  - by apply StronglySorted_thresholds.
  - by rewrite !thresholds_Permutation.
Qed.

(** C9: the table is a function of the two dictionaries alone.  The one
    place where a run could differ from another is the order in which [list]
    walks the threshold set; whatever that order, the sorted thresholds and
    the returned table (keys, counts and metadata columns, or the exception)
    are the same. *)
Theorem dataframe_deterministic py_list1 py_list2 prediction_dict benchmark_dict :
  set_order py_list1 → set_order py_list2 →
  get_confusion_matrix_dataframe_with py_list1 prediction_dict benchmark_dict
  = get_confusion_matrix_dataframe_with py_list2 prediction_dict benchmark_dict.
Proof.
  intros H1 H2. unfold get_confusion_matrix_dataframe_with.
  by rewrite (thresholds_order_irrelevant py_list1 py_list2).
Qed.

Lemma dataframe_deterministic_witness :
  get_confusion_matrix_dataframe scenario_predictions scenario_benchmark
  = get_confusion_matrix_dataframe_with (λ s, reverse (elements s))
      scenario_predictions scenario_benchmark.
Proof.
  apply dataframe_deterministic.
  - apply set_order_elements.
  - intros s. apply reverse_Permutation.
Defined.

(** C3, as stated, fails when the benchmark annotates no protein: the
    threshold [1/2] is extracted but the returned table has no row for it. *)
Lemma thresholds_without_rows :
  ¬ (∀ df t,
       get_confusion_matrix_dataframe lone_prediction empty_benchmark = Ok df →
       t ∈ distinct_prediction_thresholds_with elements lone_prediction →
       ∃ row, row ∈ df ∧ threshold (counts row) = t).
Proof.
  intros H. destruct (H [] (score 1 2)) as (row & Hrow & _).
  - vm_compute. reflexivity.
  - apply elem_of_thresholds; [apply set_order_elements|].
    apply elem_of_threshold_set. by exists "P1", {[ "GO:1" := score 1 2 ]}, "GO:1".
  - by apply elem_of_nil in Hrow.
Qed.

(** C3 (amended): the thresholds used are exactly the scores that occur in
    some protein's mapping, without repetition and strictly ascending; the
    returned table has exactly one row for every pair of a benchmark protein
    and such a threshold, and no other row; so when the benchmark annotates
    at least one protein the thresholds that have rows are exactly the
    extracted ones. *)
Theorem thresholds_are_the_distinct_scores prediction_dict benchmark_dict anns c :
  benchmark_ok benchmark_dict anns c →
  let thresholds :=
    distinct_prediction_thresholds_with elements prediction_dict in
  (∀ t, t ∈ thresholds ↔
        ∃ protein scores term,
          prediction_dict !! protein = Some scores ∧
          scores !! term = Some t) ∧
  NoDup thresholds ∧
  StronglySorted Qclt thresholds ∧
  ∃ df,
    get_confusion_matrix_dataframe prediction_dict benchmark_dict = Ok df ∧
    (∀ row, row ∈ df →
       protein (counts row) ∈ dict_keys anns ∧
       threshold (counts row) ∈ thresholds) ∧
    (∀ p t, p ∈ dict_keys anns → t ∈ thresholds →
       ∃ row, row ∈ df ∧ key (counts row) = (p, t)) ∧
    NoDup ((key ∘ counts) <$> df) ∧
    length df = (length (dict_keys anns) * length thresholds)%nat ∧
    (dict_keys anns ≠ [] →
     ∀ t, (∃ row, row ∈ df ∧ threshold (counts row) = t) ↔ t ∈ thresholds).
Proof.
  intros Hok thresholds.
  assert (NoDup thresholds) as Hnd
    by apply NoDup_thresholds, set_order_elements.
  split_and!; [|done|..].
  - intros t. unfold thresholds.
    rewrite elem_of_thresholds by apply set_order_elements.
    apply elem_of_threshold_set.
  - apply StronglySorted_strict; [apply StronglySorted_thresholds|done].
  - destruct Hok as (Hanns & Hkeys & Hc). eexists. split.
    { by apply dataframe_spec; [apply set_order_elements|..]. }
    assert (key <$> populated_rows elements prediction_dict anns c
            = key <$> key_rows (dict_keys anns) thresholds) as Hkey.
    { unfold populated_rows. rewrite <-list_fmap_compose.
      etrans; [|apply list_fmap_id]. apply list_fmap_ext. by intros i [p t] _. }
    split_and!.
    + intros row (_ & _ & _ & Hrow)%elem_of_insert_metadata.
      apply elem_of_populated_rows in Hrow as (p & t & Hp & Ht & ->).
      by split.
    + intros p t Hp Ht.
      exists (MkConfusionRow (benchmark_ontology benchmark_dict)
                (benchmark_taxon_id benchmark_dict)
                (benchmark_taxon benchmark_dict)
                (cell_row prediction_dict anns c (p, t))).
      split; [|done]. apply elem_of_insert_metadata. split_and!; [done..|].
      apply elem_of_populated_rows. by exists p, t.
    + unfold insert_metadata. rewrite <-list_fmap_compose.
      change (NoDup (key <$> populated_rows elements prediction_dict anns c)).
      rewrite Hkey. by apply NoDup_keys.
    + unfold insert_metadata, populated_rows.
      by rewrite !length_fmap, length_key_rows.
    + intros Hne t. split.
      * intros (row & (_ & _ & _ & Hrow)%elem_of_insert_metadata & <-).
        by apply elem_of_populated_rows in Hrow as (p & t' & _ & Ht & ->).
      * intros Ht. destruct (dict_keys anns) as [|p ps] eqn:Hps; [done|].
        exists (MkConfusionRow (benchmark_ontology benchmark_dict)
                  (benchmark_taxon_id benchmark_dict)
                  (benchmark_taxon benchmark_dict)
                  (cell_row prediction_dict anns c (p, t))).
        split; [|done]. apply elem_of_insert_metadata. split_and!; [done..|].
        apply elem_of_populated_rows. exists p, t. rewrite Hps.
        split_and!; [left|done..].
Qed.

Lemma thresholds_are_the_distinct_scores_witness :
  ∃ df,
    get_confusion_matrix_dataframe scenario_predictions scenario_b_benchmark
    = Ok df ∧
    NoDup ((key ∘ counts) <$> df) ∧
    length df
    = (2 * length (distinct_prediction_thresholds_with elements
                     scenario_predictions))%nat ∧
    ∀ t, (∃ row, row ∈ df ∧ threshold (counts row) = t) ↔
         t ∈ distinct_prediction_thresholds_with elements scenario_predictions.
Proof.
  destruct (thresholds_are_the_distinct_scores scenario_predictions
              scenario_b_benchmark _ _ scenario_b_benchmark_ok)
    as (_ & _ & _ & df & Hdf & _ & _ & Hnd & Hlen & Hexact).
  exists df. split; [exact Hdf|]. split; [exact Hnd|]. split; [exact Hlen|].
  apply Hexact. discriminate.
Defined.

(** C6, as stated, fails for a sequence with a repeated protein: the two
    rows of the table carry the same composite key. *)
Lemma repeated_protein_repeats_key :
  ∃ df,
    initialize_proteins_and_thresholds_dataframe ["A"; "A"] [score 1 2]
    = Ok df ∧
    length df = 2%nat ∧
    ¬ NoDup (key <$> df).
Proof.
  exists [MkRow "A" (score 1 2) 0 0 0 0; MkRow "A" (score 1 2) 0 0 0 0].
  split; [vm_compute; reflexivity|]. split; [done|].
  intros [Hin _]%NoDup_cons. apply Hin. left.
Qed.

(** C6 (amended): for P proteins and T thresholds the initializer returns a
    table of P×T rows, the row at position [a*T + b] keyed by protein [a] and
    threshold [b] (protein outer, threshold inner), every combination present,
    every count an integer zero; the keys are pairwise distinct whenever
    neither sequence repeats an element. *)
Theorem initializer_builds_product (proteins : list string)
    (thresholds : list Qc) :
  ∃ df,
    initialize_proteins_and_thresholds_dataframe proteins thresholds = Ok df ∧
    length df = (length proteins * length thresholds)%nat ∧
    df = key_rows proteins thresholds ∧
    (∀ a b p t,
       proteins !! a = Some p → thresholds !! b = Some t →
       df !! (a * length thresholds + b)%nat = Some (MkRow p t 0 0 0 0)) ∧
    (∀ p t, p ∈ proteins → t ∈ thresholds → (p, t) ∈ key <$> df) ∧
    (∀ row, row ∈ df →
       protein row ∈ proteins ∧ threshold row ∈ thresholds ∧
       tp row = 0 ∧ fp row = 0 ∧ fn row = 0 ∧ tn row = 0) ∧
    (NoDup proteins → NoDup thresholds → NoDup (key <$> df)).
Proof.
  exists (key_rows proteins thresholds). split_and!.
  - apply initialize_spec.
  - apply length_key_rows.
  - done.
  - apply lookup_key_rows.
  - intros p t ??. by apply elem_of_keys.
  - by intros row (p & t & -> & ? & ?)%elem_of_key_rows.
  - apply NoDup_keys.
Qed.

Lemma initializer_builds_product_witness :
  ∃ df,
    initialize_proteins_and_thresholds_dataframe ["A"; "B"]
      [score 1 2; score 2 3; score 3 4] = Ok df ∧
    length df = 6%nat ∧
    NoDup (key <$> df).
Proof.
  destruct (initializer_builds_product ["A"; "B"]
              [score 1 2; score 2 3; score 3 4])
    as (df & Hdf & Hlen & _ & _ & _ & _ & Hnd).
  exists df. split; [exact Hdf|]. split; [exact Hlen|].
  apply Hnd.
  - apply NoDup_cons. split; [|apply NoDup_singleton].
    by intros [=]%list_elem_of_singleton.
  - apply (bool_decide_unpack _). vm_compute. reflexivity.
Defined.

(** ** Further properties of the initializer *)

(** X1: the initializer returns the empty table exactly when one of its two
    sequences is empty; in particular an empty threshold sequence is not a
    division by zero, the loop body never runs. *)
Theorem initializer_empty_iff (proteins : list string) (thresholds : list Qc) :
  initialize_proteins_and_thresholds_dataframe proteins thresholds = Ok [] ↔
  proteins = [] ∨ thresholds = [].
Proof.
  rewrite initialize_spec. split.
  - intros [= Hnil]. apply (f_equal length) in Hnil.
    rewrite length_key_rows in Hnil. simpl in Hnil.
    destruct proteins, thresholds; simpl in *; auto; lia.
  - intros Hempty. f_equal. apply nil_length_inv. rewrite length_key_rows.
    destruct Hempty as [-> | ->]; simpl; lia.
Qed.

(** X2: the initializer works protein by protein: the table of one protein is
    one row per threshold in the given order, and the table of a concatenated
    protein sequence is the concatenation of the two tables. *)
Theorem initializer_app (proteins1 proteins2 : list string)
    (thresholds : list Qc) (p : string) :
  initialize_proteins_and_thresholds_dataframe [p] thresholds
  = Ok ((λ t, MkRow p t 0 0 0 0) <$> thresholds) ∧
  initialize_proteins_and_thresholds_dataframe (proteins1 ++ proteins2)
    thresholds
  = (df1 ← initialize_proteins_and_thresholds_dataframe proteins1 thresholds;
     df2 ← initialize_proteins_and_thresholds_dataframe proteins2 thresholds;
     Ok (df1 ++ df2)).
Proof.
  rewrite !initialize_spec. cbn [mbind result_bind]. unfold key_rows. split.
  - f_equal. rewrite bind_cons. simpl. apply app_nil_r.
  - f_equal. apply bind_app.
Qed.

(** ** Further properties of the calculator *)

(** X3: exchanging the predicted and the benchmark set exchanges the false
    positives with the false negatives and keeps the true positives. *)
Theorem confusion_terms_swap (predicted benchmark_terms : gset string) :
  let forth := get_confusion_matrix_terms predicted benchmark_terms in
  let back := get_confusion_matrix_terms benchmark_terms predicted in
  TP_terms back = TP_terms forth ∧
  FP_terms back = FN_terms forth ∧
  FN_terms back = FP_terms forth ∧
  TP (calculate_confusion_matrix benchmark_terms predicted)
  = TP (calculate_confusion_matrix predicted benchmark_terms) ∧
  FP (calculate_confusion_matrix benchmark_terms predicted)
  = FN (calculate_confusion_matrix predicted benchmark_terms) ∧
  FN (calculate_confusion_matrix benchmark_terms predicted)
  = FP (calculate_confusion_matrix predicted benchmark_terms).
Proof.
  unfold calculate_confusion_matrix, get_confusion_matrix_terms. simpl.
  assert (benchmark_terms ∩ predicted = predicted ∩ benchmark_terms) as ->
    by set_solver.
  done.
Qed.

(** X4: there is no false positive exactly when every predicted term is a
    benchmark term, no false negative exactly when every benchmark term is
    predicted, and neither exactly when the two sets are equal. *)
Theorem perfect_prediction_iff (predicted benchmark_terms : gset string) :
  let cm := calculate_confusion_matrix predicted benchmark_terms in
  (FP cm = 0 ↔ predicted ⊆ benchmark_terms) ∧
  (FN cm = 0 ↔ benchmark_terms ⊆ predicted) ∧
  (FP cm = 0 ∧ FN cm = 0 ↔ predicted = benchmark_terms).
Proof.
  unfold calculate_confusion_matrix, get_confusion_matrix_terms, py_len.
  simpl.
  assert (∀ X Y : gset string, Z.of_nat (size (X ∖ Y)) = 0 ↔ X ⊆ Y) as Hdiff.
  { intros X Y. rewrite <-Nat2Z.inj_0, Nat2Z.inj_iff, size_empty_iff.
    split; [intros Hempty x Hx|set_solver].
    destruct (decide (x ∈ Y)); [done|]. set_solver. }
  rewrite !Hdiff. split_and!; [done..|]. set_solver.
Qed.

Lemma sum_values_union (predicted benchmark_terms : gset string) :
  sum_values (calculate_confusion_matrix predicted benchmark_terms)
  = py_len (predicted ∪ benchmark_terms).
Proof.
  unfold calculate_confusion_matrix, get_confusion_matrix_terms, sum_values,
    py_len. simpl.
  assert (predicted ∪ benchmark_terms
          = predicted ∩ benchmark_terms ∪ predicted ∖ benchmark_terms
            ∪ benchmark_terms ∖ predicted) as ->.
  { apply set_eq. intros x.
    destruct (decide (x ∈ predicted)), (decide (x ∈ benchmark_terms));
      set_solver. }
  rewrite (size_union (_ ∪ _)) by set_solver.
  rewrite (size_union (predicted ∩ benchmark_terms)) by set_solver.
  lia.
Qed.

(** X5: the three counts add up to the size of the union of the two sets,
    so no count exceeds it, TP is at most the size of either set, FP at most
    that of the predicted set and FN at most that of the benchmark set. *)
Theorem counts_sum_to_union (predicted benchmark_terms : gset string) :
  let cm := calculate_confusion_matrix predicted benchmark_terms in
  sum_values cm = py_len (predicted ∪ benchmark_terms) ∧
  0 ≤ TP cm ≤ py_len predicted ∧ TP cm ≤ py_len benchmark_terms ∧
  0 ≤ FP cm ≤ py_len predicted ∧
  0 ≤ FN cm ≤ py_len benchmark_terms.
Proof.
  split; [apply sum_values_union|].
  unfold calculate_confusion_matrix, get_confusion_matrix_terms, py_len.
  simpl.
  pose proof (subseteq_size (predicted ∩ benchmark_terms) predicted).
  pose proof (subseteq_size (predicted ∩ benchmark_terms) benchmark_terms).
  pose proof (subseteq_size (predicted ∖ benchmark_terms) predicted).
  pose proof (subseteq_size (benchmark_terms ∖ predicted) benchmark_terms).
  split_and!; try lia; apply inj_le; set_solver.
Qed.

(** X6: with nothing predicted every benchmark term is a false negative and
    the other counts are zero; with an empty benchmark every predicted term
    is a false positive and the other counts are zero. *)
Theorem confusion_matrix_empty_inputs (terms : gset string) :
  calculate_confusion_matrix ∅ terms
  = {| TP := 0; FP := 0; FN := py_len terms |} ∧
  calculate_confusion_matrix terms ∅
  = {| TP := 0; FP := py_len terms; FN := 0 |}.
Proof.
  unfold calculate_confusion_matrix, get_confusion_matrix_terms. simpl.
  assert (∅ ∩ terms = ∅) as -> by set_solver.
  assert (∅ ∖ terms = ∅) as -> by set_solver.
  assert (terms ∖ ∅ = terms) as -> by set_solver.
  assert (terms ∩ ∅ = ∅) as -> by set_solver.
  done.
Qed.

(** ** Further properties of the populator *)

Lemma py_for_ext {X St} (xs : list X) (body1 body2 : X → St → result St) s :
  (∀ x s, x ∈ xs → body1 x s = body2 x s) →
  py_for xs body1 s = py_for xs body2 s.
Proof.
  revert s. induction xs as [|x xs IH]; intros s Hbody; [done|]. simpl.
  rewrite Hbody by left. destruct (body2 x s) as [s'|e]; [|done]. simpl.
  apply IH. intros y s2 Hy. apply Hbody. by right.
Qed.

(** The thresholds are empty exactly when no protein has a score. *)
Lemma thresholds_nil_iff py_list prediction_dict :
  set_order py_list →
  distinct_prediction_thresholds_with py_list prediction_dict = [] ↔
  ∀ p scores, prediction_dict !! p = Some scores → scores = ∅.
Proof.
  intros Horder. split.
  - intros Hnil p scores Hp. apply map_eq. intros term.
    rewrite lookup_empty. destruct (scores !! term) as [v|] eqn:Hv; [|done].
    assert (v ∈ distinct_prediction_thresholds_with py_list prediction_dict)
      as Hin.
    { apply elem_of_thresholds; [done|]. apply elem_of_threshold_set.
      by exists p, scores, term. }
    rewrite Hnil in Hin. by apply elem_of_nil in Hin.
  - intros Hempty.
    destruct (distinct_prediction_thresholds_with py_list prediction_dict)
      as [|t ts] eqn:Hts; [done|].
    assert (t ∈ distinct_prediction_thresholds_with py_list prediction_dict)
      as Hin by (rewrite Hts; left).
    apply elem_of_thresholds in Hin; [|done].
    apply elem_of_threshold_set in Hin as (p & scores & term & Hp & Hterm).
    rewrite (Hempty p scores Hp) in Hterm. by rewrite lookup_empty in Hterm.
Qed.

Lemma populate_body_type_error prediction_dict p terms anns t df :
  populate_body prediction_dict ((p, terms) :: anns) None t p df
  = Raise TypeError.
Proof. unfold populate_body. cbn [dict_get]. by rewrite decide_True. Qed.

(** What the populator does without a term count. *)
Lemma dataframe_without_term_count py_list prediction_dict benchmark_dict anns :
  protein_annotations benchmark_dict = Some anns →
  benchmark_ontology_term_count benchmark_dict = None →
  get_confusion_matrix_dataframe_with py_list prediction_dict benchmark_dict
  = match anns, distinct_prediction_thresholds_with py_list prediction_dict with
    | _ :: _, _ :: _ => Raise TypeError
    | _, _ => Ok []
    end.
Proof.
  intros Hanns Hc. unfold get_confusion_matrix_dataframe_with.
  rewrite Hanns, Hc, initialize_spec. cbn [mbind result_bind].
  set (ts := distinct_prediction_thresholds_with py_list prediction_dict).
  destruct anns as [|[p terms] anns'].
  - assert (∀ ts' : list Qc,
      py_for ts' (λ t df, py_for [] (populate_body prediction_dict [] None t)
                            df) [] = Ok ([] : list Row)) as Hloop
      by (induction ts' as [|? ? IH]; [done|apply IH]).
    simpl. by rewrite Hloop.
  - destruct ts as [|t ts'].
    + assert (key_rows (dict_keys ((p, terms) :: anns')) [] = []) as ->
        by (apply nil_length_inv; rewrite length_key_rows; simpl; lia).
      done.
    + cbn [py_for dict_keys fmap list_fmap fst].
      by rewrite populate_body_type_error.
Qed.

Lemma lookup_populated_rows py_list prediction_dict anns c a b p t :
  dict_keys anns !! a = Some p →
  distinct_prediction_thresholds_with py_list prediction_dict !! b = Some t →
  populated_rows py_list prediction_dict anns c
    !! (a * length (distinct_prediction_thresholds_with py_list
                      prediction_dict) + b)%nat
  = Some (cell_row prediction_dict anns c (p, t)).
Proof.
  intros Ha Hb. unfold populated_rows.
  by rewrite !list_lookup_fmap, (lookup_key_rows _ _ _ _ _ _ Ha Hb).
Qed.

(** The counts of one row of the returned table. *)
Lemma row_counts prediction_dict benchmark_dict anns c df row :
  benchmark_ok benchmark_dict anns c →
  get_confusion_matrix_dataframe prediction_dict benchmark_dict = Ok df →
  row ∈ df →
  ∃ terms,
    dict_get anns (protein (counts row)) = Some terms ∧
    threshold (counts row)
      ∈ distinct_prediction_thresholds_with elements prediction_dict ∧
    let cm :=
      calculate_confusion_matrix
        (predicted_annotations
           (default ∅ (prediction_dict !! protein (counts row)))
           (threshold (counts row)))
        (list_to_set terms) in
    tp (counts row) = TP cm ∧ fp (counts row) = FP cm ∧
    fn (counts row) = FN cm ∧
    tn (counts row) = stored_int64 (c - sum_values cm).
Proof.
  intros Hok Hdf Hrow.
  destruct (dataframe_rows prediction_dict benchmark_dict anns c Hok)
    as (df' & Hdf' & Hrows).
  rewrite Hdf in Hdf'. injection Hdf' as <-.
  destruct (proj1 (Hrows row) Hrow)
    as (_ & _ & _ & p & t & terms & Hp & Ht & Hcell).
  rewrite Hcell, (cell_row_eq _ _ _ _ _ _ Hp). simpl. by exists terms.
Qed.

(** X7: with an annotation dictionary whose keys are pairwise distinct the
    populator raises [AttributeError] exactly when [protein_annotations] is
    missing from the benchmark. *)
Theorem populator_exceptions prediction_dict benchmark_dict :
  (∀ anns, protein_annotations benchmark_dict = Some anns →
           NoDup (dict_keys anns)) →
  get_confusion_matrix_dataframe prediction_dict benchmark_dict
  = Raise AttributeError ↔ protein_annotations benchmark_dict = None.
Proof.
  intros Hdict. split.
  - unfold get_confusion_matrix_dataframe.
    destruct (protein_annotations benchmark_dict) as [anns|] eqn:Hanns;
      [|done].
    destruct (benchmark_ontology_term_count benchmark_dict) as [c|] eqn:Hc.
    + rewrite (dataframe_spec _ _ _ anns c);
        [done|apply set_order_elements|by auto..].
    + rewrite (dataframe_without_term_count _ _ _ anns) by done.
      by destruct (distinct_prediction_thresholds_with elements
                     prediction_dict), anns.
  - intros Hnone. unfold get_confusion_matrix_dataframe,
      get_confusion_matrix_dataframe_with. by rewrite Hnone.
Qed.

Lemma populator_exceptions_witness :
  get_confusion_matrix_dataframe scenario_predictions no_annotations_benchmark
  = Raise AttributeError.
Proof.
  apply (proj2 (populator_exceptions scenario_predictions
                  no_annotations_benchmark ltac:(intros anns [=]))).
  reflexivity.
Defined.

(** X8: without [benchmark_ontology_term_count] the populator raises
    [TypeError] as soon as there is a cell to fill, that is when the benchmark
    has a protein and the predictions have a score; otherwise it returns the
    empty table. *)
Theorem missing_term_count prediction_dict benchmark_dict anns :
  protein_annotations benchmark_dict = Some anns →
  benchmark_ontology_term_count benchmark_dict = None →
  (anns ≠ [] →
   (∃ p scores term v,
      prediction_dict !! p = Some scores ∧ scores !! term = Some v) →
   get_confusion_matrix_dataframe prediction_dict benchmark_dict
   = Raise TypeError) ∧
  (anns = [] ∨
   (∀ p scores, prediction_dict !! p = Some scores → scores = ∅) →
   get_confusion_matrix_dataframe prediction_dict benchmark_dict = Ok []).
Proof.
  intros Hanns Hc. unfold get_confusion_matrix_dataframe.
  rewrite (dataframe_without_term_count _ _ _ anns) by done.
  split.
  - intros Hne (p & scores & term & v & Hp & Hv).
    destruct anns as [|? ?]; [done|].
    destruct (distinct_prediction_thresholds_with elements prediction_dict)
      as [|t ts] eqn:Hts; [|done].
    pose proof (proj1 (thresholds_nil_iff elements prediction_dict
                         set_order_elements) Hts) as Hempty.
    rewrite (Hempty p scores Hp) in Hv. by rewrite lookup_empty in Hv.
  - intros [-> | Hempty]; [done|].
    rewrite (proj2 (thresholds_nil_iff elements prediction_dict
                      set_order_elements) Hempty).
    by destruct anns.
Qed.

Lemma missing_term_count_witness :
  get_confusion_matrix_dataframe scenario_predictions no_count_benchmark
  = Raise TypeError ∧
  get_confusion_matrix_dataframe scoreless_predictions no_count_benchmark
  = Ok [].
Proof.
  split.
  - apply (proj1 (missing_term_count scenario_predictions no_count_benchmark
                    [("P1", ["GO:1"; "GO:3"])] eq_refl eq_refl)).
    + discriminate.
    + exists "P1", {[ "GO:1" := score 1 2; "GO:2" := score 9 10 ]}, "GO:1",
        (score 1 2). split; reflexivity.
  - apply (proj2 (missing_term_count scoreless_predictions no_count_benchmark
                    [("P1", ["GO:1"; "GO:3"])] eq_refl eq_refl)).
    right. intros p scores Hp.
    unfold scoreless_predictions in Hp.
    apply lookup_singleton_Some in Hp as [_ <-]. reflexivity.
Defined.

(** X9: when no protein of the prediction dictionary has a score there is no
    threshold, and the populator returns the empty table whatever the
    benchmark holds: its proteins get no row, and a missing term count goes
    unnoticed. *)
Theorem scoreless_predictions_empty_table prediction_dict benchmark_dict anns :
  protein_annotations benchmark_dict = Some anns →
  (∀ p scores, prediction_dict !! p = Some scores → scores = ∅) →
  get_confusion_matrix_dataframe prediction_dict benchmark_dict = Ok [].
Proof.
  intros Hanns Hempty.
  unfold get_confusion_matrix_dataframe, get_confusion_matrix_dataframe_with.
  rewrite Hanns, initialize_spec.
  rewrite (proj2 (thresholds_nil_iff elements prediction_dict
                    set_order_elements) Hempty).
  assert (key_rows (dict_keys anns) [] = []) as ->
    by (apply nil_length_inv; rewrite length_key_rows; simpl; lia).
  done.
Qed.

Lemma scoreless_predictions_empty_table_witness :
  get_confusion_matrix_dataframe scoreless_predictions scenario_b_benchmark
  = Ok [].
Proof.
  apply (scoreless_predictions_empty_table scoreless_predictions
           scenario_b_benchmark _ eq_refl).
  intros p scores Hp. unfold scoreless_predictions in Hp.
  apply lookup_singleton_Some in Hp as [_ <-]. reflexivity.
Defined.

(** X10: the rows of the returned table are ordered by benchmark protein (in
    the order of the annotation dictionary) and, within one protein, by
    ascending threshold, although the loop that fills them runs over the
    thresholds first: the row at position [a*T + b] belongs to protein [a]
    and threshold [b]. *)
Theorem rows_protein_major prediction_dict benchmark_dict anns c :
  benchmark_ok benchmark_dict anns c →
  let thresholds :=
    distinct_prediction_thresholds_with elements prediction_dict in
  ∃ df,
    get_confusion_matrix_dataframe prediction_dict benchmark_dict = Ok df ∧
    ∀ a b p t,
      dict_keys anns !! a = Some p → thresholds !! b = Some t →
      ∃ row, df !! (a * length thresholds + b)%nat = Some row ∧
             protein (counts row) = p ∧ threshold (counts row) = t.
Proof.
  intros (Hanns & Hnd & Hc) thresholds. eexists. split.
  { by apply dataframe_spec; [apply set_order_elements|..]. }
  intros a b p t Ha Hb. unfold insert_metadata.
  rewrite list_lookup_fmap,
    (lookup_populated_rows _ _ _ _ _ _ _ _ Ha Hb). simpl.
  by eexists.
Qed.

Lemma rows_protein_major_witness :
  ∃ df,
    get_confusion_matrix_dataframe scenario_predictions scenario_b_benchmark
    = Ok df ∧
    ∃ row, df !! 3%nat = Some row ∧
           protein (counts row) = "P2" ∧ threshold (counts row) = score 9 10.
Proof.
  destruct (rows_protein_major scenario_predictions scenario_b_benchmark _ _
              scenario_b_benchmark_ok) as (df & Hdf & Hrows).
  exists df. split; [exact Hdf|].
  apply (Hrows 1%nat 1%nat "P2" (score 9 10)); vm_compute; reflexivity.
Defined.

Lemma dataframe_inv py_list prediction_dict benchmark_dict df :
  get_confusion_matrix_dataframe_with py_list prediction_dict benchmark_dict
  = Ok df →
  ∃ anns rows,
    protein_annotations benchmark_dict = Some anns ∧
    py_for (distinct_prediction_thresholds_with py_list prediction_dict)
      (λ threshold df,
         py_for (dict_keys anns)
           (populate_body prediction_dict anns
              (benchmark_ontology_term_count benchmark_dict) threshold) df)
      (key_rows (dict_keys anns)
         (distinct_prediction_thresholds_with py_list prediction_dict))
    = Ok rows ∧
    df = insert_metadata (benchmark_ontology benchmark_dict)
           (benchmark_taxon_id benchmark_dict)
           (benchmark_taxon benchmark_dict) rows.
Proof.
  unfold get_confusion_matrix_dataframe_with.
  destruct (protein_annotations benchmark_dict) as [anns|]; [|done].
  rewrite initialize_spec. cbn [mbind result_bind].
  destruct (py_for _ _ _) as [rows|e] eqn:Hrows; [|done].
  intros [= <-]. by exists anns, rows.
Qed.

(** X11: every row of a returned table carries the three metadata values of
    the benchmark record, [None] where the record has none; and the metadata
    have no other effect: two benchmark records with the same annotations and
    term count give the same index and counts, or the same exception. *)
Theorem metadata_columns prediction_dict benchmark1 benchmark2 :
  (∀ df row,
     get_confusion_matrix_dataframe prediction_dict benchmark1 = Ok df →
     row ∈ df →
     ontology row = benchmark_ontology benchmark1 ∧
     taxon_id row = benchmark_taxon_id benchmark1 ∧
     taxon row = benchmark_taxon benchmark1) ∧
  (protein_annotations benchmark1 = protein_annotations benchmark2 →
   benchmark_ontology_term_count benchmark1
   = benchmark_ontology_term_count benchmark2 →
   index_and_counts
     (get_confusion_matrix_dataframe prediction_dict benchmark1)
   = index_and_counts
       (get_confusion_matrix_dataframe prediction_dict benchmark2)).
Proof.
  split.
  - intros df row (anns & rows & _ & _ & ->)%dataframe_inv Hrow.
    by apply elem_of_insert_metadata in Hrow as (? & ? & ? & _).
  - intros Hanns Hc.
    unfold get_confusion_matrix_dataframe, get_confusion_matrix_dataframe_with.
    rewrite Hanns, Hc.
    destruct (protein_annotations benchmark2) as [anns|]; [|done].
    rewrite initialize_spec. cbn [mbind result_bind].
    destruct (py_for _ _ _) as [rows|e]; [|done].
    cbn [mbind result_bind index_and_counts]. unfold insert_metadata.
    by rewrite <-!list_fmap_compose.
Qed.

Lemma metadata_columns_witness :
  index_and_counts
    (get_confusion_matrix_dataframe scenario_predictions scenario_benchmark)
  = index_and_counts
      (get_confusion_matrix_dataframe scenario_predictions bare_benchmark).
Proof.
  apply (proj2 (metadata_columns scenario_predictions scenario_benchmark
                  bare_benchmark)); reflexivity.
Defined.

Lemma calculate_confusion_matrix_mono_tp
    (predicted1 predicted2 bench : gset string) :
  predicted2 ⊆ predicted1 →
  TP (calculate_confusion_matrix predicted2 bench)
    ≤ TP (calculate_confusion_matrix predicted1 bench) ∧
  sum_values (calculate_confusion_matrix predicted2 bench)
    ≤ sum_values (calculate_confusion_matrix predicted1 bench).
Proof.
  intros Hsub. rewrite !sum_values_union.
  unfold calculate_confusion_matrix, py_len. simpl.
  split; apply inj_le, subseteq_size; set_solver.
Qed.

Lemma tp_plus_fn (predicted bench : gset string) :
  TP (calculate_confusion_matrix predicted bench)
  + FN (calculate_confusion_matrix predicted bench) = py_len bench.
Proof.
  unfold calculate_confusion_matrix, py_len. simpl.
  rewrite <-Nat2Z.inj_add, <-size_union by set_solver. do 2 f_equal.
  apply set_eq. intros x. destruct (decide (x ∈ predicted)); set_solver.
Qed.

Lemma tp_plus_fp (predicted bench : gset string) :
  TP (calculate_confusion_matrix predicted bench)
  + FP (calculate_confusion_matrix predicted bench) = py_len predicted.
Proof.
  unfold calculate_confusion_matrix, py_len. simpl.
  rewrite <-Nat2Z.inj_add, <-size_union by set_solver. do 2 f_equal.
  apply set_eq. intros x. destruct (decide (x ∈ bench)); set_solver.
Qed.

(** X12: among the rows of one protein in the returned table, a row at a
    higher threshold has a TP count no larger, and a TN count no smaller when
    the term count minus TP + FP + FN is a value of the [int64] column on
    both rows (no smaller than -2^63 on the lower row, no larger than
    2^63 - 1 on the higher one). *)
Theorem tp_tn_monotone_in_threshold prediction_dict benchmark_dict anns c df :
  benchmark_ok benchmark_dict anns c →
  get_confusion_matrix_dataframe prediction_dict benchmark_dict = Ok df →
  ∀ row1 row2,
    row1 ∈ df → row2 ∈ df →
    protein (counts row1) = protein (counts row2) →
    (threshold (counts row1) ≤ threshold (counts row2))%Qc →
    tp (counts row2) ≤ tp (counts row1) ∧
    (int64_min
       ≤ c - (tp (counts row1) + fp (counts row1) + fn (counts row1)) →
     c - (tp (counts row2) + fp (counts row2) + fn (counts row2))
       ≤ int64_max →
     tn (counts row1) ≤ tn (counts row2)).
Proof.
  intros Hok Hdf row1 row2 Hrow1 Hrow2 Hp Hle.
  destruct (row_counts _ _ _ _ _ _ Hok Hdf Hrow1)
    as (terms1 & Hterms1 & _ & Htp1 & Hfp1 & Hfn1 & Htn1).
  destruct (row_counts _ _ _ _ _ _ Hok Hdf Hrow2)
    as (terms2 & Hterms2 & _ & Htp2 & Hfp2 & Hfn2 & Htn2).
  rewrite Hp in Hterms1, Htp1, Hfp1, Hfn1, Htn1.
  rewrite Hterms1 in Hterms2. injection Hterms2 as <-.
  rewrite Htp1, Htp2, Hfp1, Hfp2, Hfn1, Hfn2, Htn1, Htn2.
  destruct (calculate_confusion_matrix_mono_tp
              (predicted_annotations
                 (default ∅ (prediction_dict !! protein (counts row2)))
                 (threshold (counts row1)))
              (predicted_annotations
                 (default ∅ (prediction_dict !! protein (counts row2)))
                 (threshold (counts row2)))
              (list_to_set terms1)) as [Htp Hsum];
    [by apply predicted_annotations_anti|].
  split; [done|]. unfold sum_values in *. intros Hmin Hmax.
  rewrite !stored_int64_fits; lia.
Qed.

Lemma tp_tn_monotone_in_threshold_witness :
  tp (counts scenario_row_high) ≤ tp (counts scenario_row_low) ∧
  tn (counts scenario_row_low) ≤ tn (counts scenario_row_high).
Proof.
  destruct (tp_tn_monotone_in_threshold scenario_predictions
              scenario_benchmark _ _ _ scenario_benchmark_ok scenario_table
              scenario_row_low scenario_row_high) as [Htp Htn].
  - left.
  - right. left.
  - reflexivity.
  - vm_compute. discriminate.
  - split; [exact Htp|]. apply Htn; vm_compute; discriminate.
Defined.

(** X13: in every row TP + FN is the number of distinct benchmark terms of
    the row's protein, so it is the same at every threshold, and TP + FP is
    the number of the protein's terms scored at or above the row's
    threshold. *)
Theorem row_marginals prediction_dict benchmark_dict anns c df :
  benchmark_ok benchmark_dict anns c →
  get_confusion_matrix_dataframe prediction_dict benchmark_dict = Ok df →
  (∀ row, row ∈ df →
     ∃ terms,
       dict_get anns (protein (counts row)) = Some terms ∧
       tp (counts row) + fn (counts row) = len (remove_dups terms) ∧
       tp (counts row) + fp (counts row)
       = py_len (predicted_annotations
                   (default ∅ (prediction_dict !! protein (counts row)))
                   (threshold (counts row)))) ∧
  (∀ row1 row2,
     row1 ∈ df → row2 ∈ df →
     protein (counts row1) = protein (counts row2) →
     tp (counts row1) + fn (counts row1)
     = tp (counts row2) + fn (counts row2)).
Proof.
  intros Hok Hdf.
  assert (∀ row, row ∈ df →
     ∃ terms,
       dict_get anns (protein (counts row)) = Some terms ∧
       tp (counts row) + fn (counts row) = py_len (list_to_set terms) ∧
       tp (counts row) + fp (counts row)
       = py_len (predicted_annotations
                   (default ∅ (prediction_dict !! protein (counts row)))
                   (threshold (counts row)))) as Hrows.
  { intros row Hrow.
    destruct (row_counts _ _ _ _ _ _ Hok Hdf Hrow)
      as (terms & Hterms & _ & -> & -> & -> & _).
    exists terms. split_and!; [done|apply tp_plus_fn|apply tp_plus_fp]. }
  split.
  - intros row Hrow. destruct (Hrows row Hrow) as (terms & ? & Hfn & ?).
    exists terms. split_and!; [done| |done].
    rewrite Hfn. unfold py_len, len. f_equal.
    rewrite <-(size_list_to_set (C:=gset string) (remove_dups terms))
      by apply NoDup_remove_dups.
    f_equal. apply set_eq. intros x.
    by rewrite !elem_of_list_to_set, elem_of_remove_dups.
  - intros row1 row2 Hrow1 Hrow2 Hp.
    destruct (Hrows row1 Hrow1) as (terms1 & Hterms1 & -> & _).
    destruct (Hrows row2 Hrow2) as (terms2 & Hterms2 & -> & _).
    rewrite Hp in Hterms1. by simplify_eq.
Qed.

Lemma row_marginals_witness :
  tp (counts scenario_row_low) + fn (counts scenario_row_low)
  = tp (counts scenario_row_high) + fn (counts scenario_row_high).
Proof.
  apply (proj2 (row_marginals scenario_predictions scenario_benchmark
                  _ _ _ scenario_benchmark_ok scenario_table)
           scenario_row_low scenario_row_high).
  - left.
  - right. left.
  - reflexivity.
Defined.

(** X14: the TN of a row is the term count minus the number of terms that
    are predicted at the row's threshold or annotated in the benchmark when
    that difference is a value of the [int64] column, and 0 when it is not;
    so it never exceeds a term count that is not negative, and it is not
    negative when the protein's predicted and benchmark terms all come from
    a universe of at most as many terms as the term count. *)
Theorem tn_complement_of_union prediction_dict benchmark_dict anns c df :
  benchmark_ok benchmark_dict anns c →
  get_confusion_matrix_dataframe prediction_dict benchmark_dict = Ok df →
  ∀ row, row ∈ df →
    ∃ terms,
      dict_get anns (protein (counts row)) = Some terms ∧
      tn (counts row)
      = stored_int64
          (c - py_len (predicted_annotations
                         (default ∅ (prediction_dict !! protein (counts row)))
                         (threshold (counts row))
                       ∪ list_to_set terms)) ∧
      (int64_min
         ≤ c - py_len (predicted_annotations
                         (default ∅ (prediction_dict !! protein (counts row)))
                         (threshold (counts row))
                       ∪ list_to_set terms)
         ≤ int64_max →
       tn (counts row)
       = c - py_len (predicted_annotations
                       (default ∅ (prediction_dict !! protein (counts row)))
                       (threshold (counts row))
                     ∪ list_to_set terms)) ∧
      (0 ≤ c → tn (counts row) ≤ c) ∧
      ∀ universe : gset string,
        py_len universe ≤ c →
        (∀ x, x ∈ terms → x ∈ universe) →
        dom (default ∅ (prediction_dict !! protein (counts row))) ⊆ universe →
        0 ≤ tn (counts row).
Proof.
  intros Hok Hdf row Hrow.
  destruct (row_counts _ _ _ _ _ _ Hok Hdf Hrow)
    as (terms & Hterms & _ & _ & _ & _ & ->).
  exists terms. rewrite sum_values_union. split_and!; [done..| | |].
  - apply stored_int64_fits.
  - intros Hc. destruct (stored_int64_cases
                           (c - py_len (predicted_annotations
                                          (default ∅ (prediction_dict
                                                        !! protein (counts row)))
                                          (threshold (counts row))
                                        ∪ list_to_set terms)))
      as [[_ ->]|[_ ->]]; unfold py_len; lia.
  - intros universe Hsize Hterms_in Hdom.
    assert (predicted_annotations
              (default ∅ (prediction_dict !! protein (counts row)))
              (threshold (counts row)) ∪ list_to_set terms ⊆ universe) as Hsub.
    { intros x [Hx|Hx%elem_of_list_to_set]%elem_of_union; [|by apply Hterms_in].
      apply Hdom. apply elem_of_predicted_annotations in Hx as (v & Hv & _).
      apply elem_of_dom. by exists v. }
    apply subseteq_size in Hsub.
    destruct (stored_int64_cases
                (c - py_len (predicted_annotations
                               (default ∅ (prediction_dict
                                             !! protein (counts row)))
                               (threshold (counts row))
                             ∪ list_to_set terms)))
      as [[_ ->]|[_ ->]]; unfold py_len in *; lia.
Qed.

Lemma tn_complement_of_union_witness :
  0 ≤ tn (counts scenario_row_low) ≤ 10.
Proof.
  destruct (tn_complement_of_union scenario_predictions scenario_benchmark
              _ _ _ scenario_benchmark_ok scenario_table scenario_row_low)
    as (terms & Hterms & _ & _ & Hle & Hnonneg); [left|].
  injection Hterms as <-. split; [|apply Hle; lia].
  apply (Hnonneg {[ "GO:1"; "GO:2"; "GO:3" ]}).
  - vm_compute. discriminate.
  - intros x. rewrite !elem_of_cons, elem_of_nil. set_solver.
  - apply (bool_decide_unpack _). vm_compute. reflexivity.
Defined.

(** X15: a row whose threshold lies above every score of its protein has
    nothing predicted: TP = 0, FP = 0 and FN the number of distinct benchmark
    terms, as for a protein without predictions; its TN is the term count
    minus FN when that is a value of the [int64] column. *)
Theorem threshold_above_every_score prediction_dict benchmark_dict anns c df :
  benchmark_ok benchmark_dict anns c →
  get_confusion_matrix_dataframe prediction_dict benchmark_dict = Ok df →
  ∀ row, row ∈ df →
    (∀ scores term v,
       prediction_dict !! protein (counts row) = Some scores →
       scores !! term = Some v → (v < threshold (counts row))%Qc) →
    ∃ terms,
      dict_get anns (protein (counts row)) = Some terms ∧
      tp (counts row) = 0 ∧ fp (counts row) = 0 ∧
      fn (counts row) = py_len (list_to_set terms) ∧
      (int64_min ≤ c - fn (counts row) ≤ int64_max →
       tn (counts row) = c - fn (counts row)).
Proof.
  intros Hok Hdf row Hrow Habove.
  destruct (row_counts _ _ _ _ _ _ Hok Hdf Hrow)
    as (terms & Hterms & _ & -> & -> & -> & ->).
  assert (predicted_annotations
            (default ∅ (prediction_dict !! protein (counts row)))
            (threshold (counts row)) = ∅) as ->.
  { apply set_eq. intros term. rewrite elem_of_predicted_annotations.
    split; [|by intros ?%not_elem_of_empty]. intros (v & Hv & Hle).
    destruct (prediction_dict !! protein (counts row)) as [scores|] eqn:Hp;
      simpl in Hv; [|by rewrite lookup_empty in Hv].
    destruct (Qclt_not_le _ _ (Habove scores term v eq_refl Hv) Hle). }
  exists terms. unfold calculate_confusion_matrix, sum_values, py_len. simpl.
  assert (∅ ∩ list_to_set terms =@{gset string} ∅) as -> by set_solver.
  assert (∅ ∖ list_to_set terms =@{gset string} ∅) as -> by set_solver.
  assert (list_to_set terms ∖ ∅ =@{gset string} list_to_set terms) as ->
    by set_solver.
  rewrite size_empty. split_and!; [done..|].
  intros Hfits. rewrite stored_int64_fits; lia.
Qed.

Example two_protein_table :
  get_confusion_matrix_dataframe two_protein_predictions scenario_b_benchmark
  = Ok [ MkConfusionRow (Some "X") (Some 1) (Some "T")
           (MkRow "P1" (score 1 2) 1 0 1 8);
         MkConfusionRow (Some "X") (Some 1) (Some "T")
           (MkRow "P1" (score 9 10) 0 0 2 8);
         MkConfusionRow (Some "X") (Some 1) (Some "T")
           (MkRow "P2" (score 1 2) 1 0 1 8);
         MkConfusionRow (Some "X") (Some 1) (Some "T")
           (MkRow "P2" (score 9 10) 1 0 1 8) ].
Proof. vm_compute. reflexivity. Qed.

Lemma threshold_above_every_score_witness :
  ∃ terms,
    dict_get [("P1", ["GO:1"; "GO:3"]); ("P2", ["GO:4"; "GO:4"; "GO:5"])]
      (protein (counts two_protein_row)) = Some terms ∧
    tp (counts two_protein_row) = 0 ∧ fp (counts two_protein_row) = 0 ∧
    fn (counts two_protein_row) = py_len (list_to_set terms) ∧
    tn (counts two_protein_row) = 10 - fn (counts two_protein_row).
Proof.
  destruct (threshold_above_every_score two_protein_predictions
              scenario_b_benchmark _ _ _ scenario_b_benchmark_ok
              two_protein_table two_protein_row)
    as (terms & Hterms & Htp & Hfp & Hfn & Htn).
  - right. left.
  - intros scores term v Hp Hv.
    assert (scores = {[ "GO:1" := score 1 2 ]}) as ->
      by (vm_compute in Hp; by injection Hp as <-).
    apply lookup_singleton_Some in Hv as [_ <-]. reflexivity.
  - exists terms. split_and!; [exact Hterms|exact Htp|exact Hfp|exact Hfn|].
    apply Htn. vm_compute. split; discriminate.
Defined.

(** X16: a row whose threshold is at or below every score of its protein
    counts every predicted term of that protein: TP + FP is the size of the
    protein's score mapping.  The first threshold of the table is such a
    threshold for every protein. *)
Theorem lowest_threshold_counts_everything
    prediction_dict benchmark_dict anns c df :
  benchmark_ok benchmark_dict anns c →
  get_confusion_matrix_dataframe prediction_dict benchmark_dict = Ok df →
  (∀ row scores, row ∈ df →
     prediction_dict !! protein (counts row) = Some scores →
     (∀ term v, scores !! term = Some v → (threshold (counts row) ≤ v)%Qc) →
     tp (counts row) + fp (counts row) = Z.of_nat (size scores)) ∧
  (∀ row scores, row ∈ df →
     prediction_dict !! protein (counts row) = Some scores →
     head (distinct_prediction_thresholds_with elements prediction_dict)
     = Some (threshold (counts row)) →
     tp (counts row) + fp (counts row) = Z.of_nat (size scores)).
Proof.
  intros Hok Hdf.
  assert (∀ row scores, row ∈ df →
     prediction_dict !! protein (counts row) = Some scores →
     (∀ term v, scores !! term = Some v → (threshold (counts row) ≤ v)%Qc) →
     tp (counts row) + fp (counts row) = Z.of_nat (size scores)) as Hbelow.
  { intros row scores Hrow Hscores Hle.
    destruct (row_counts _ _ _ _ _ _ Hok Hdf Hrow)
      as (terms & _ & _ & -> & -> & _).
    rewrite tp_plus_fp, Hscores. simpl. unfold py_len. f_equal.
    rewrite <-(size_dom (D:=gset string)). f_equal.
    apply set_eq. intros term.
    rewrite elem_of_predicted_annotations, elem_of_dom. unfold is_Some.
    split; [intros (v & ? & _); by exists v|].
    intros [v Hv]. exists v. split; [done|by eapply Hle]. }
  split; [done|].
  intros row scores Hrow Hscores Hhead. apply Hbelow; [done..|].
  intros term v Hv.
  assert (v ∈ distinct_prediction_thresholds_with elements prediction_dict)
    as Hin.
  { apply elem_of_thresholds; [apply set_order_elements|].
    apply elem_of_threshold_set.
    by exists (protein (counts row)), scores, term. }
  pose proof (StronglySorted_thresholds elements prediction_dict) as Hsorted.
  destruct (distinct_prediction_thresholds_with elements prediction_dict)
    as [|t0 ts]; [done|]. simpl in Hhead. injection Hhead as ->.
  apply elem_of_cons in Hin as [->|Hin]; [apply Qcle_refl|].
  apply StronglySorted_inv in Hsorted as [_ Hall].
  rewrite Forall_forall in Hall. by apply Hall.
Qed.

Lemma lowest_threshold_counts_everything_witness :
  tp (counts scenario_row_low) + fp (counts scenario_row_low)
  = Z.of_nat (size ({[ "GO:1" := score 1 2; "GO:2" := score 9 10 ]}
                      : gmap string Qc)).
Proof.
  apply (proj2 (lowest_threshold_counts_everything scenario_predictions
                  scenario_benchmark _ _ _ scenario_benchmark_ok
                  scenario_table)
           scenario_row_low {[ "GO:1" := score 1 2; "GO:2" := score 9 10 ]}).
  - left.
  - reflexivity.
  - vm_compute. reflexivity.
Defined.

(** X17: only the set of a protein's benchmark terms matters: two annotation
    dictionaries with the same keys in the same order, whose term lists have
    the same elements in whatever order and multiplicity, give the same
    result. *)
Theorem benchmark_terms_as_sets prediction_dict o c t i anns1 anns2 :
  dict_keys anns1 = dict_keys anns2 →
  (∀ p terms1 terms2,
     dict_get anns1 p = Some terms1 → dict_get anns2 p = Some terms2 →
     ∀ x, x ∈ terms1 ↔ x ∈ terms2) →
  get_confusion_matrix_dataframe prediction_dict
    (MkBenchmark o c t i (Some anns1))
  = get_confusion_matrix_dataframe prediction_dict
      (MkBenchmark o c t i (Some anns2)).
Proof.
  intros Hkeys Hterms.
  unfold get_confusion_matrix_dataframe, get_confusion_matrix_dataframe_with.
  cbn [protein_annotations benchmark_ontology benchmark_taxon
       benchmark_taxon_id benchmark_ontology_term_count].
  rewrite Hkeys, !initialize_spec. cbn [mbind result_bind].
  f_equal. apply py_for_ext. intros threshold0 df _.
  apply py_for_ext. intros p df' Hp. unfold populate_body.
  destruct (dict_get_is_Some anns1 p) as [terms1 Hterms1];
    [by rewrite Hkeys|].
  destruct (dict_get_is_Some anns2 p) as [terms2 Hterms2]; [done|].
  rewrite Hterms1, Hterms2. cbn [py_set mbind result_bind].
  assert (list_to_set terms1 =@{gset string} list_to_set terms2) as ->; [|done].
  apply set_eq. intros x. rewrite !elem_of_list_to_set. by eapply Hterms.
Qed.

Lemma benchmark_terms_as_sets_witness :
  get_confusion_matrix_dataframe scenario_predictions scenario_benchmark
  = get_confusion_matrix_dataframe scenario_predictions shuffled_benchmark.
Proof.
  apply (benchmark_terms_as_sets scenario_predictions (Some "X") (Some 10)
           (Some "T") (Some 1) [("P1", ["GO:1"; "GO:3"])]
           [("P1", ["GO:3"; "GO:1"; "GO:3"])]).
  - reflexivity.
  - intros p terms1 terms2 H1 H2 x. simpl in H1, H2.
    case_decide; [|discriminate].
    injection H1 as <-. injection H2 as <-.
    rewrite !elem_of_cons, elem_of_nil. tauto.
Defined.

(** X18: the scores of a protein outside the benchmark reach the table only
    through the thresholds they add: two prediction dictionaries that agree
    on every benchmark protein and have the same set of scores give the same
    result. *)
Theorem other_proteins_only_add_thresholds
    prediction_dict1 prediction_dict2 benchmark_dict :
  (∀ anns p,
     protein_annotations benchmark_dict = Some anns → p ∈ dict_keys anns →
     prediction_dict1 !! p = prediction_dict2 !! p) →
  threshold_set prediction_dict1 = threshold_set prediction_dict2 →
  get_confusion_matrix_dataframe prediction_dict1 benchmark_dict
  = get_confusion_matrix_dataframe prediction_dict2 benchmark_dict.
Proof.
  intros Hagree Hset.
  unfold get_confusion_matrix_dataframe, get_confusion_matrix_dataframe_with,
    distinct_prediction_thresholds_with.
  rewrite Hset.
  destruct (protein_annotations benchmark_dict) as [anns|]; [|done].
  rewrite initialize_spec. cbn [mbind result_bind].
  f_equal. apply py_for_ext. intros threshold0 df _.
  apply py_for_ext. intros p df' Hp. unfold populate_body.
  by rewrite (Hagree anns p eq_refl Hp).
Qed.

Lemma other_proteins_only_add_thresholds_witness :
  get_confusion_matrix_dataframe scenario_predictions scenario_benchmark
  = get_confusion_matrix_dataframe scenario_predictions_extra
      scenario_benchmark.
Proof.
  apply other_proteins_only_add_thresholds.
  - intros anns p [= <-] Hp. apply list_elem_of_singleton in Hp as ->.
    vm_compute. reflexivity.
  - vm_compute. reflexivity.
Defined.

Example unannotated_table :
  get_confusion_matrix_dataframe scenario_predictions unannotated_benchmark
  = Ok [ MkConfusionRow (Some "X") (Some 1) (Some "T")
           (MkRow "P1" (score 1 2) 0 2 0 8);
         MkConfusionRow (Some "X") (Some 1) (Some "T")
           (MkRow "P1" (score 9 10) 0 1 0 9) ].
Proof. vm_compute. reflexivity. Qed.

(** X19: a benchmark protein with an empty list of terms has TP = 0 and
    FN = 0 in every row and every term predicted at the row's threshold is a
    false positive; its TN is the term count minus FP when that is a value
    of the [int64] column. *)
Theorem protein_without_benchmark_terms
    prediction_dict benchmark_dict anns c df :
  benchmark_ok benchmark_dict anns c →
  get_confusion_matrix_dataframe prediction_dict benchmark_dict = Ok df →
  ∀ row, row ∈ df →
    dict_get anns (protein (counts row)) = Some [] →
    tp (counts row) = 0 ∧ fn (counts row) = 0 ∧
    fp (counts row)
    = py_len (predicted_annotations
                (default ∅ (prediction_dict !! protein (counts row)))
                (threshold (counts row))) ∧
    (int64_min ≤ c - fp (counts row) ≤ int64_max →
     tn (counts row) = c - fp (counts row)).
Proof.
  intros Hok Hdf row Hrow Hnone.
  destruct (row_counts _ _ _ _ _ _ Hok Hdf Hrow)
    as (terms & Hterms & _ & -> & -> & -> & ->).
  rewrite Hnone in Hterms. injection Hterms as <-.
  set (predicted := predicted_annotations _ _).
  unfold calculate_confusion_matrix, sum_values, py_len. simpl.
  assert (predicted ∩ ∅ = ∅) as -> by set_solver.
  assert (predicted ∖ ∅ = predicted) as -> by set_solver.
  assert (∅ ∖ predicted = ∅) as -> by set_solver.
  rewrite size_empty. split_and!; [done..|].
  intros Hfits. rewrite stored_int64_fits; lia.
Qed.

Lemma protein_without_benchmark_terms_witness :
  tp (counts unannotated_row) = 0 ∧ fn (counts unannotated_row) = 0 ∧
  fp (counts unannotated_row)
  = py_len (predicted_annotations
              (default ∅ (scenario_predictions
                            !! protein (counts unannotated_row)))
              (threshold (counts unannotated_row))) ∧
  tn (counts unannotated_row) = 10 - fp (counts unannotated_row).
Proof.
  assert (benchmark_ok unannotated_benchmark [("P1", [])] 10) as Hok
    by (split_and!; [reflexivity|apply NoDup_singleton|reflexivity]).
  destruct (protein_without_benchmark_terms scenario_predictions
              unannotated_benchmark _ _ _ Hok unannotated_table
              unannotated_row) as (Htp & Hfn & Hfp & Htn).
  - left.
  - reflexivity.
  - split_and!; [exact Htp|exact Hfn|exact Hfp|].
    apply Htn. vm_compute. split; discriminate.
Defined.
